(** * blogin: comment, like and post services

    A shallow embedding of the HTTP routers of the comment service
    ([app/routers/comments.py], [app/schemas.py], [app/models.py]) and of the
    post service ([app/routers/posts.py]), with the properties of the
    specification stated over it.

    Conventions.
    - Python [int] is [Z]; [//] on a positive divisor is [Z.div].
    - A handler is a function from the database state to an outcome and the
      database state after the request: [db -> Result A * db].
    - [raise HTTPException(status_code=s, detail=d)] is [HTTPException s d].
    - Library functions ([uuid.UUID], [str], [jose.jwt.decode]) are
      operations of a type class; only the facts listed in the class are
      used about them. *)

From Stdlib Require Import ZArith List Ascii String Lia Sorted Permutation.
From Stdlib Require Import HexadecimalString HexadecimalN.
From stdpp Require Import base option list gmap strings.

Local Open Scope string_scope.
Local Open Scope Z_scope.
Local Open Scope list_scope.

(** ** Outcomes of a request *)

Inductive Result (A : Type) : Type :=
| Ok (a : A)
| HTTPException (status_code : Z) (detail : string).
Arguments Ok {A} a.
Arguments HTTPException {A} status_code detail.

Definition status_of {A} (r : Result A) : Z :=
  match r with
  | Ok _ => 200
  | HTTPException s _ => s
  end.

(** FastAPI answers a request whose [Query] constraints fail with 422 before
    the handler body runs. *)
Definition RequestValidationError {A} : Result A :=
  HTTPException 422 "validation error".

(** An exception that no handler catches ends the request with 500. *)
Definition Unhandled {A} (what : string) : Result A :=
  HTTPException 500 what.

(** ** Library interfaces *)

(** [uuid.UUID(s)] parses a string ([None] is [ValueError]); [str(u)] prints
    the canonical form, which parses back to the same value. *)
Class UuidLib := {
  UUID : Type;
  UUID_eq_dec :: EqDecision UUID;
  uuid_of_string : string -> option UUID;
  string_of_uuid : UUID -> string;
  uuid_of_string_of_uuid : forall u, uuid_of_string (string_of_uuid u) = Some u
}.

(** The decoded claims of a token; [payload.get(k)] is the map lookup. *)
Abbreviation Payload := (gmap string string).

(** [settings = get_settings()] of [app/config.py]. *)
Record Settings := {
  JWT_SECRET_KEY : string;
  JWT_ALGORITHM : string
}.

(** [jwt.decode(token, key, algorithms=[alg])]; [None] is [JWTError]
    (bad signature, malformed or expired token). *)
Class JwtLib := {
  settings : Settings;
  jwt_decode : string -> string -> list string -> option Payload
}.

(** ** datetime *)

Module datetime.
Record t := {
  year : Z; month : Z; day : Z;
  hour : Z; minute : Z; second : Z; microsecond : Z
}.

(** Python compares two datetimes field by field, most significant first. *)
Fixpoint lex_le (a b : list Z) : bool :=
  match a, b with
  | [], _ => true
  | _ :: _, [] => false
  | x :: a', y :: b' =>
      if x <? y then true else if y <? x then false else lex_le a' b'
  end.

Definition fields (d : t) : list Z :=
  [year d; month d; day d; hour d; minute d; second d; microsecond d].

Definition le (a b : t) : bool := lex_le (fields a) (fields b).

Definition digit (n : Z) : ascii := ascii_of_nat (48 + Z.to_nat (n mod 10)).

(** [%02d] and [%04d]; [isoformat] pads the year, [strftime] does not. *)
Definition pad2 (n : Z) : string :=
  String (digit (n / 10)) (String (digit n) EmptyString).
Definition pad4 (n : Z) : string :=
  String (digit (n / 1000)) (String (digit (n / 100)) (pad2 n)).

(** [%Y] as the C library prints it: the year as a decimal number with no
    padding, so a year below 1000 has fewer than four digits. The years of
    a [datetime] are 1 to 9999. *)
Definition number (n : Z) : string :=
  if n <? 10 then String (digit n) EmptyString
  else if n <? 100 then pad2 n
  else if n <? 1000 then String (digit (n / 100)) (pad2 n)
  else pad4 n.

(** [%b] in the C locale. *)
Definition month_abbr (m : Z) : string :=
  nth (Z.to_nat (m - 1))
    ["Jan"; "Feb"; "Mar"; "Apr"; "May"; "Jun";
     "Jul"; "Aug"; "Sep"; "Oct"; "Nov"; "Dec"] EmptyString.

(** [%I]: the hour on a 12-hour clock, 12 for midnight and noon. *)
Definition hour12 (h : Z) : Z := if h mod 12 =? 0 then 12 else h mod 12.

(** [%p]. *)
Definition am_pm (h : Z) : string := if h <? 12 then "AM" else "PM".

Definition directive (c : ascii) (d : t) : string :=
  if Ascii.eqb c "b"%char then month_abbr (month d)
  else if Ascii.eqb c "d"%char then pad2 (day d)
  else if Ascii.eqb c "Y"%char then number (year d)
  else if Ascii.eqb c "I"%char then pad2 (hour12 (hour d))
  else if Ascii.eqb c "M"%char then pad2 (minute d)
  else if Ascii.eqb c "p"%char then am_pm (hour d)
  else String "%"%char (String c EmptyString).

(** [d.strftime(fmt)]: directives are replaced, other characters copied. *)
Fixpoint strftime (fmt : string) (d : t) : string :=
  match fmt with
  | EmptyString => EmptyString
  | String "%"%char (String c rest) => (directive c d ++ strftime rest d)%string
  | String c rest => String c (strftime rest d)
  end.

(** The ranges of the fields of a [datetime] object. *)
Definition valid (d : t) : Prop :=
  1 <= year d <= 9999 /\ 1 <= month d <= 12 /\ 1 <= day d <= 31
  /\ 0 <= hour d < 24 /\ 0 <= minute d < 60 /\ 0 <= second d < 60
  /\ 0 <= microsecond d < 1000000.
End datetime.

(** ** Comment service: table and schemas *)

(** [app/models.py], one row of [comments.comments]. *)
Module Comment.
Record t {U : UuidLib} := {
  id : UUID;
  post_id : UUID;
  author_id : UUID;
  parent_id : option UUID;
  content : string;
  is_deleted : bool;
  created_at : datetime.t;
  updated_at : datetime.t;
  edited_at : option datetime.t
}.
End Comment.

(** [app/schemas.py], [CommentCreate]: the request body of a creation. *)
Module CommentCreate.
Record t {U : UuidLib} := {
  content : string;
  post_id : option UUID;
  parent_id : option UUID
}.
End CommentCreate.

(** [app/schemas.py], [CommentUpdate]. *)
Module CommentUpdate.
Record t := { content : option string }.
End CommentUpdate.

(** [app/schemas.py], [CommentInDB] (and [CommentResponse], which adds
    nothing). *)
Module CommentInDB.
Record t {U : UuidLib} := {
  content : string;
  id : UUID;
  post_id : UUID;
  author_id : UUID;
  parent_id : option UUID;
  is_deleted : bool;
  created_at : datetime.t;
  updated_at : datetime.t;
  edited_at : option datetime.t;
  edited : bool;
  edited_at_formatted : option string
}.

Definition edited_format : string := "%b %d, %Y %I:%M %p".

(** The [model_validator(mode="after")]. A [datetime] is always truthy, so
    [if self.edited_at] is the test against [None]. *)
Definition compute_edited_flag {U : UuidLib} (self : t) : t :=
  let edited' := bool_decide (edited_at self <> None) in
  let formatted' :=
    match edited_at self with
    | Some d => Some ("edited - " ++ datetime.strftime edited_format d)%string
    | None => edited_at_formatted self
    end in
  {| content := content self; id := id self; post_id := post_id self;
     author_id := author_id self; parent_id := parent_id self;
     is_deleted := is_deleted self; created_at := created_at self;
     updated_at := updated_at self; edited_at := edited_at self;
     edited := edited'; edited_at_formatted := formatted' |}.

(** [from_attributes = True]: the fields are read from the attributes of
    the row of the same name; the row has no [edited] and no
    [edited_at_formatted], which take their defaults before the validator
    runs. *)
Definition model_validate {U : UuidLib} (row : Comment.t) : t :=
  compute_edited_flag
    {| content := Comment.content row; id := Comment.id row;
       post_id := Comment.post_id row; author_id := Comment.author_id row;
       parent_id := Comment.parent_id row;
       is_deleted := Comment.is_deleted row;
       created_at := Comment.created_at row;
       updated_at := Comment.updated_at row;
       edited_at := Comment.edited_at row;
       edited := false; edited_at_formatted := None |}.
End CommentInDB.

(** [app/schemas.py], [CommentWithReplies]: a [CommentInDB] and its replies. *)
#[local] Set Warnings "-register-all".
Inductive CommentWithReplies {U : UuidLib} : Type :=
| WithReplies (data : CommentInDB.t) (replies : list CommentWithReplies).

Definition node_data {U : UuidLib} (n : CommentWithReplies) : CommentInDB.t :=
  match n with WithReplies d _ => d end.
Definition node_replies {U : UuidLib} (n : CommentWithReplies)
  : list CommentWithReplies :=
  match n with WithReplies _ rs => rs end.

(** The label of section 4.3, spelled out field by field. *)
Definition edited_label (d : datetime.t) : string :=
  ("edited - " ++ datetime.month_abbr (datetime.month d) ++ " "
     ++ datetime.pad2 (datetime.day d) ++ ", "
     ++ datetime.pad4 (datetime.year d) ++ " "
     ++ datetime.pad2 (datetime.hour12 (datetime.hour d)) ++ ":"
     ++ datetime.pad2 (datetime.minute d) ++ " "
     ++ datetime.am_pm (datetime.hour d))%string.


(** The uniform envelope, [APIResponse] of [app/schemas.py]. *)
Record APIResponse (T : Type) := {
  success : bool;
  message : string;
  data : option T;
  error : option string
}.
Arguments success {T} _.
Arguments message {T} _.
Arguments data {T} _.
Arguments error {T} _.

(** [APIResponse(data=x)]: the other fields take their defaults. *)
Definition APIResponse_data {T} (x : T) : APIResponse T :=
  {| success := true; message := "Success"; data := Some x; error := None |}.

(** [PaginatedResponse] of [app/schemas.py]. *)
Module PaginatedResponse.
Record t (T : Type) := {
  envelope : APIResponse T;
  total : Z;
  page : Z;
  page_size : Z;
  total_pages : Z
}.
Arguments envelope {T} _.
Arguments total {T} _.
Arguments page {T} _.
Arguments page_size {T} _.
Arguments total_pages {T} _.
End PaginatedResponse.

(** What a service function does: it returns, or raises [ValueError]. *)
Inductive Raises (A : Type) : Type :=
| Returns (a : A)
| ValueError (msg : string).
Arguments Returns {A} a.
Arguments ValueError {A} msg.

(** ** Comment service: data access

    [app/services/comment_service.py] is not among the sources; its
    operations are modelled from the specification. The table is the list
    of its rows in insertion order. *)
Module CommentService.
Section service.
Context {U : UuidLib}.

(** Modelled from the spec: the filter of the active reads is missing.
    Section 3: a soft-deleted row is kept and left out of the reads. *)
Definition is_active (c : Comment.t) : bool := negb (Comment.is_deleted c).

(** Modelled from the spec: [CommentService.get_by_id] is missing. Section
    3: soft-deleted comments are excluded from active reads; section 4.1:
    fetch the comment, if absent signal not found. *)
Definition get_by_id (db : list Comment.t) (comment_id : UUID)
  : option Comment.t :=
  find (fun c => bool_decide (Comment.id c = comment_id) && is_active c) db.

(** Modelled from the spec: the ordering of the children query is missing.
    Section 4.1: creation order among siblings, ascending [created_at];
    rows of equal time are kept in table order. *)
Fixpoint insert_by_created_at (c : Comment.t) (l : list Comment.t)
  : list Comment.t :=
  match l with
  | [] => [c]
  | x :: l' =>
      if datetime.le (Comment.created_at c) (Comment.created_at x)
      then c :: x :: l'
      else x :: insert_by_created_at c l'
  end.

(** Modelled from the spec: [ORDER BY created_at ASC] of the missing
    children query, by insertion from the right. *)
Definition order_by_created_at (l : list Comment.t) : list Comment.t :=
  foldr insert_by_created_at [] l.

(** Modelled from the spec: the condition of the missing children query.
    Section 4.1: [parent_id] is the node and the row is not soft-deleted. *)
Definition is_reply_to (parent : UUID) (c : Comment.t) : bool :=
  bool_decide (Comment.parent_id c = Some parent) && is_active c.

(** Modelled from the spec: the children query of the tree assembly is
    missing. Section 4.1: the comments whose [parent_id] is the node,
    excluding soft-deleted ones, in ascending [created_at]. *)
Definition get_replies (db : list Comment.t) (parent : UUID)
  : list Comment.t :=
  order_by_created_at (List.filter (is_reply_to parent) db).

(** Modelled from the spec: [CommentService.build_comment_tree] is
    missing. Section 4.1: a direct recursive lookup, a node per comment
    with its own fields and the ordered sequence of its child nodes. The
    recursion has no guard of its own; [depth] is the number of nested
    calls the interpreter allows, and [None] is [RecursionError]. *)
Fixpoint build_comment_tree (depth : nat) (db : list Comment.t)
    (comment : Comment.t) : option CommentWithReplies :=
  match depth with
  | O => None
  | S depth' =>
      replies ← mapM (build_comment_tree depth' db)
                     (get_replies db (Comment.id comment));
      Some (WithReplies (CommentInDB.model_validate comment) replies)
  end.

(** Modelled from the spec: [CommentService.create] is missing. Section 3:
    a comment is attached to a post, its author is its creator, it starts
    active and unedited; [created_at] is set at creation. The row gets the
    [author_id] argument; [new_id] is the draw of [uuid.uuid4] and [now]
    the clock. A body without [post_id] cannot make a row ([post_id] is
    not nullable in [app/models.py]). *)
Definition create (db : list Comment.t) (obj_in : CommentCreate.t)
    (author_id : UUID) (new_id : UUID) (now : datetime.t)
  : Raises Comment.t * list Comment.t :=
  match CommentCreate.post_id obj_in with
  | None => (ValueError "post_id is required", db)
  | Some post =>
      let row :=
        {| Comment.id := new_id; Comment.post_id := post;
           Comment.author_id := author_id;
           Comment.parent_id := CommentCreate.parent_id obj_in;
           Comment.content := CommentCreate.content obj_in;
           Comment.is_deleted := false;
           Comment.created_at := now; Comment.updated_at := now;
           Comment.edited_at := None |} in
      (Returns row, db ++ [row])
  end.

(** Modelled from the spec: the write of a changed row, which the missing
    service commits; the row of the same id is replaced in place. *)
Definition replace_row (row : Comment.t) (db : list Comment.t)
  : list Comment.t :=
  map (fun c => if bool_decide (Comment.id c = Comment.id row)
                then row else c) db.

(** Modelled from the spec: [CommentService.update] is missing. Section
    4.3: [edited_at] is set whenever the content is changed by the update;
    section 3: [updated_at] is refreshed on any mutation. *)
Definition update (db : list Comment.t) (comment : Comment.t)
    (obj_in : CommentUpdate.t) (now : datetime.t)
  : Comment.t * list Comment.t :=
  match CommentUpdate.content obj_in with
  | None => (comment, db)
  | Some text =>
      let row :=
        {| Comment.id := Comment.id comment;
           Comment.post_id := Comment.post_id comment;
           Comment.author_id := Comment.author_id comment;
           Comment.parent_id := Comment.parent_id comment;
           Comment.content := text;
           Comment.is_deleted := Comment.is_deleted comment;
           Comment.created_at := Comment.created_at comment;
           Comment.updated_at := now;
           Comment.edited_at := Some now |} in
      (row, replace_row row db)
  end.

(** Modelled from the spec: the row after the missing
    [CommentService.delete]. Section 3: the flag is set and the row kept;
    [updated_at] is refreshed on any mutation. *)
Definition soft_deleted (c : Comment.t) (now : datetime.t) : Comment.t :=
  {| Comment.id := Comment.id c; Comment.post_id := Comment.post_id c;
     Comment.author_id := Comment.author_id c;
     Comment.parent_id := Comment.parent_id c;
     Comment.content := Comment.content c;
     Comment.is_deleted := true;
     Comment.created_at := Comment.created_at c;
     Comment.updated_at := now;
     Comment.edited_at := Comment.edited_at c |}.

(** Modelled from the spec: [CommentService.delete] is missing. Sections
    3 and 4.2: a comment is soft-deleted only by its author, the row is
    kept; an absent comment and a caller who is not the author both give
    the same negative answer. *)
Definition delete (db : list Comment.t) (comment_id : UUID)
    (author_id : UUID) (now : datetime.t) : bool * list Comment.t :=
  match get_by_id db comment_id with
  | None => (false, db)
  | Some c =>
      if bool_decide (Comment.author_id c = author_id)
      then (true, replace_row (soft_deleted c now) db)
      else (false, db)
  end.
End service.
End CommentService.

(** Modelled from the spec: the page cut of the missing listing queries,
    [OFFSET skip LIMIT limit]. A negative number of rows cannot be asked
    for: the callers validate their arguments first. *)
Definition offset_limit {A} (skip limit : Z) (rows : list A) : list A :=
  take (Z.to_nat limit) (drop (Z.to_nat skip) rows).

(** [total_pages = (total + page_size - 1) // page_size], as both routers
    compute it. *)
Definition pages_of (total page_size : Z) : Z :=
  (total + page_size - 1) / page_size.

Module CommentListing.
Section listing.
Context {U : UuidLib}.

(** Modelled from the spec: the dictionary the missing [get_by_post]
    returns; the router reads its [items], [total], [page] and
    [page_size]. *)
Record t := {
  items : list CommentInDB.t;
  total : Z;
  page : Z;
  page_size : Z
}.

(** Modelled from the spec: the condition of the missing listing query,
    the active comments of the post. *)
Definition on_post (post_id : UUID) (c : Comment.t) : bool :=
  bool_decide (Comment.post_id c = post_id) && CommentService.is_active c.

(** Modelled from the spec: [CommentService.get_by_post] is missing.
    Sections 3 and 6: the active comments of the post, one page of them,
    with the number of all of them. *)
Definition get_by_post (db : list Comment.t) (post_id : UUID)
    (page page_size : Z) : t :=
  let rows := List.filter (on_post post_id) db in
  {| items := map CommentInDB.model_validate
                (offset_limit ((page - 1) * page_size) page_size rows);
     total := Z.of_nat (length rows);
     page := page;
     page_size := page_size |}.

(** Modelled from the spec: [CommentService.get_comment_count_by_post] is
    missing; section 6, count comments on post. *)
Definition get_comment_count_by_post (db : list Comment.t) (post_id : UUID)
  : Z :=
  Z.of_nat (length (List.filter (on_post post_id) db)).
End listing.
End CommentListing.

(** ** Comment service: [app/routers/comments.py] *)

(** A value of a keyword dictionary built by [model_dump]. *)
Inductive PyValue {U : UuidLib} : Type :=
| PyNone
| PyStr (s : string)
| PyUUID (u : UUID).

Module comments.
Section router.
Context {U : UuidLib} {J : JwtLib}.

Abbreviation Db := (list Comment.t).

(** What a request cannot choose: the draw of [uuid.uuid4], the clock and
    the number of nested calls the interpreter allows. *)
Record Env := {
  new_id : UUID;
  now : datetime.t;
  recursion_limit : nat
}.

(** Modelled from the spec: [get_current_user] of
    [app/routers/dependencies.py] is missing. Section 6: the token is
    verified with the shared secret and the fixed algorithm, its subject
    is the caller's user id, an absent or invalid token gives 401. *)
Definition get_current_user (token : string) : Result (gmap string string) :=
  match jwt_decode token (JWT_SECRET_KEY settings) [JWT_ALGORITHM settings] with
  | None => HTTPException 401 "Invalid authentication credentials"
  | Some payload =>
      match payload !! "sub" with
      | None => HTTPException 401 "Invalid authentication credentials"
      | Some sub => Ok {[ "user_id" := sub ]}
      end
  end.

(** [Depends(get_current_user)]: the handler runs with the dictionary the
    dependency returns; when the dependency raises, the handler does not
    run. *)
Definition authenticated {A} (token : string)
    (handler : gmap string string -> Db -> Result A * Db) (db : Db)
  : Result A * Db :=
  match get_current_user token with
  | Ok current_user => handler current_user db
  | HTTPException s d => (HTTPException s d, db)
  end.

(** [uuid.UUID(current_user["user_id"])]: [KeyError] and [ValueError] are
    the two ways it can fail. *)
Inductive CallerId :=
| Caller (u : UUID)
| CallerKeyError
| CallerValueError.

Definition caller_uuid (current_user : gmap string string) : CallerId :=
  match current_user !! "user_id" with
  | None => CallerKeyError
  | Some s =>
      match uuid_of_string s with
      | None => CallerValueError
      | Some u => Caller u
      end
  end.

(** Pydantic's check of [CommentBase.content]: 1 to 5000 characters. *)
Definition content_ok (s : string) : bool :=
  (1 <=? Z.of_nat (String.length s)) && (Z.of_nat (String.length s) <=? 5000).

(** [comment_in: CommentCreate]: FastAPI builds the body before the handler
    runs and answers 422 itself when the content is not valid; the handler
    then does not run. *)
Definition with_body {A} (comment_in : CommentCreate.t)
    (handler : CommentCreate.t -> Db -> Result A * Db) (db : Db)
  : Result A * Db :=
  if content_ok (CommentCreate.content comment_in)
  then handler comment_in db
  else (RequestValidationError, db).

(** [POST] on the root of the router. The [try] covers the conversion of the caller's id and the
    call of the service; [except ValueError] turns both into 400. *)
Definition create_comment (comment_in : CommentCreate.t)
    (current_user : gmap string string) (env : Env) (db : Db)
  : Result (APIResponse CommentInDB.t) * Db :=
  match caller_uuid current_user with
  | CallerKeyError => (Unhandled "KeyError", db)
  | CallerValueError =>
      (HTTPException 400 "badly formed hexadecimal UUID string", db)
  | Caller author =>
      match CommentService.create db comment_in author (new_id env) (now env) with
      | (Returns comment, db') =>
          (Ok (APIResponse_data (CommentInDB.model_validate comment)), db')
      | (ValueError e, db') => (HTTPException 400 e, db')
      end
  end.

(** [comment_in.model_dump()]. *)
Definition model_dump (c : CommentCreate.t) : gmap string PyValue :=
  <[ "content" := PyStr (CommentCreate.content c) ]>
  (<[ "post_id" := from_option PyUUID PyNone (CommentCreate.post_id c) ]>
  (<[ "parent_id" := from_option PyUUID PyNone (CommentCreate.parent_id c) ]>
   ∅)).

Definition optional_uuid (v : option PyValue) : option (option UUID) :=
  match v with
  | None | Some PyNone => Some None
  | Some (PyUUID u) => Some (Some u)
  | Some (PyStr s) => Some <$> uuid_of_string s
  end.

(** [CommentCreateSchema] applied to the keywords of [comment_data]: the
    fields are read from the keywords and validated; [None] is pydantic's [ValidationError], which
    is a [ValueError]. *)
Definition CommentCreateSchema (kw : gmap string PyValue)
  : option CommentCreate.t :=
  match kw !! "content" with
  | Some (PyStr s) =>
      if content_ok s then
        post ← optional_uuid (kw !! "post_id");
        parent ← optional_uuid (kw !! "parent_id");
        Some {| CommentCreate.content := s;
                CommentCreate.post_id := post;
                CommentCreate.parent_id := parent |}
      else None
  | _ => None
  end.

(** [POST /post/{post_id}]. The dump of a body that FastAPI has accepted,
    with a UUID for [post_id], validates again: the branch for a schema
    that is refused is written out because the [except] covers it (a
    pydantic [ValidationError] is a [ValueError]), its detail standing for
    the text of that error, but no request reaches it. *)
Definition create_comment_by_post (post_id : UUID)
    (comment_in : CommentCreate.t) (current_user : gmap string string)
    (env : Env) (db : Db) : Result (APIResponse CommentInDB.t) * Db :=
  let comment_data := model_dump comment_in in
  let comment_data := <[ "post_id" := PyUUID post_id ]> comment_data in
  match CommentCreateSchema comment_data with
  | None => (HTTPException 400 "validation error", db)
  | Some comment_with_post =>
      match caller_uuid current_user with
      | CallerKeyError => (Unhandled "KeyError", db)
      | CallerValueError =>
          (HTTPException 400 "badly formed hexadecimal UUID string", db)
      | Caller author =>
          match CommentService.create db comment_with_post author
                  (new_id env) (now env) with
          | (Returns comment, db') =>
              (Ok (APIResponse_data (CommentInDB.model_validate comment)), db')
          | (ValueError e, db') => (HTTPException 400 e, db')
          end
      end
  end.
(** [GET /post/{post_id}]; [Query(1, ge=1)] and [Query(20, ge=1, le=100)]
    are checked before the body runs. *)
Definition get_comments_by_post (post_id : UUID) (page page_size : Z)
    (db : Db) : Result (PaginatedResponse.t (list CommentInDB.t)) * Db :=
  if negb (1 <=? page) || negb (1 <=? page_size) || negb (page_size <=? 100)
  then (RequestValidationError, db)
  else
    let result := CommentListing.get_by_post db post_id page page_size in
    let total_pages := (CommentListing.total result + page_size - 1) / page_size in
    (Ok {| PaginatedResponse.envelope :=
             APIResponse_data (CommentListing.items result);
           PaginatedResponse.total := CommentListing.total result;
           PaginatedResponse.page := CommentListing.page result;
           PaginatedResponse.page_size := CommentListing.page_size result;
           PaginatedResponse.total_pages := total_pages |}, db).

(** [GET /{comment_id}]. Without the replies the comment is serialised as
    a [CommentWithReplies] whose [replies] take their default. *)
Definition get_comment (comment_id : UUID) (include_replies : bool)
    (env : Env) (db : Db) : Result (APIResponse CommentWithReplies) * Db :=
  match CommentService.get_by_id db comment_id with
  | None => (HTTPException 404 "Comment not found", db)
  | Some comment =>
      if include_replies then
        match CommentService.build_comment_tree (recursion_limit env) db comment with
        | Some comment_tree => (Ok (APIResponse_data comment_tree), db)
        | None => (Unhandled "RecursionError", db)
        end
      else
        (Ok (APIResponse_data
               (WithReplies (CommentInDB.model_validate comment) [])), db)
  end.

(** [PUT /{comment_id}]. The owner test compares strings:
    [str(comment.author_id) != current_user["user_id"]]. *)
Definition update_comment (comment_id : UUID) (comment_in : CommentUpdate.t)
    (current_user : gmap string string) (env : Env) (db : Db)
  : Result (APIResponse CommentInDB.t) * Db :=
  match CommentService.get_by_id db comment_id with
  | None => (HTTPException 404 "Comment not found", db)
  | Some comment =>
      match current_user !! "user_id" with
      | None => (Unhandled "KeyError", db)
      | Some caller =>
          if bool_decide (string_of_uuid (Comment.author_id comment) <> caller)
          then (HTTPException 403 "Not authorized to update this comment", db)
          else
            let '(updated_comment, db') :=
              CommentService.update db comment comment_in (now env) in
            (Ok (APIResponse_data (CommentInDB.model_validate updated_comment)),
             db')
      end
  end.

(** [DELETE /{comment_id}]. *)
Definition delete_comment (comment_id : UUID)
    (current_user : gmap string string) (env : Env) (db : Db)
  : Result (APIResponse (gmap string bool)) * Db :=
  match caller_uuid current_user with
  | CallerKeyError => (Unhandled "KeyError", db)
  | CallerValueError => (Unhandled "ValueError", db)
  | Caller author =>
      let '(success, db') :=
        CommentService.delete db comment_id author (now env) in
      if negb success
      then (HTTPException 404 "Comment not found or not authorized", db')
      else (Ok (APIResponse_data {[ "deleted" := true ]}), db')
  end.

(** [GET /post/{post_id}/count]. *)
Definition get_comment_count (post_id : UUID) (db : Db)
  : Result (APIResponse (gmap string Z)) * Db :=
  let count := CommentListing.get_comment_count_by_post db post_id in
  (Ok (APIResponse_data {[ "count" := count ]}), db).
End router.
End comments.

(** ** Post service: tables

    [app/models.py], [app/schemas.py] and [app/services/post_service.py] of
    the post service are not among the sources. The records below have the
    attributes that [app/routers/posts.py] reads. *)

(** [d.isoformat()]: the fraction is printed only when it is not zero. *)
Definition isoformat_fraction (us : Z) : string :=
  if us =? 0 then EmptyString
  else ("." ++ datetime.pad2 (us / 10000) ++ datetime.pad4 us)%string.

Definition isoformat (d : datetime.t) : string :=
  (datetime.pad4 (datetime.year d) ++ "-" ++ datetime.pad2 (datetime.month d)
     ++ "-" ++ datetime.pad2 (datetime.day d) ++ "T"
     ++ datetime.pad2 (datetime.hour d) ++ ":"
     ++ datetime.pad2 (datetime.minute d) ++ ":"
     ++ datetime.pad2 (datetime.second d)
     ++ isoformat_fraction (datetime.microsecond d))%string.

Module Tag.
(** Modelled from the spec: the [Tag] model is missing; the router reads
    its [id], [name] and [slug]. *)
Record t {U : UuidLib} := { id : UUID; name : string; slug : string }.
End Tag.

Module Post.
(** Modelled from the spec: the [Post] model is missing. Section 3: id and
    unique slug, author, tags, status, view counter, timestamps. *)
Record t {U : UuidLib} := {
  id : UUID;
  author_id : UUID;
  title : string;
  slug : string;
  content : string;
  summary : string;
  status : string;
  view_count : Z;
  tags : list Tag.t;
  created_at : datetime.t;
  updated_at : datetime.t;
  published_at : option datetime.t
}.

(** The post [p] with its counter set to [n]. *)
Definition with_view_count {U : UuidLib} (n : Z) (p : t) : t :=
  {| id := id p; author_id := author_id p; title := title p;
     slug := slug p; content := content p; summary := summary p;
     status := status p; view_count := n; tags := tags p;
     created_at := created_at p; updated_at := updated_at p;
     published_at := published_at p |}.
End Post.

Module PostDb.
(** The database the post service reaches: its own table and, through a
    direct query, the [users.profiles] table, keyed by the text of the user
    id. *)
Record t {U : UuidLib} := {
  posts : list Post.t;
  profiles : gmap string string
}.
End PostDb.

(** The request schemas and the two filters whose predicates the sources do
    not show. *)
Class PostSchemas {U : UuidLib} := {
  PostCreate : Type;
  PostUpdate : Type;
  (** the row [create_post] makes for an author, an id and a time *)
  new_post : PostCreate -> UUID -> UUID -> datetime.t -> Post.t;
  (** the fields [update_post] writes *)
  apply_update : PostUpdate -> datetime.t -> Post.t -> Post.t;
  tag_matches : string -> Tag.t -> bool;
  search_matches : string -> Post.t -> bool
}.

(** The envelope of the post service: [success], [data], [message],
    [errors]. *)
Record PostAPIResponse (T : Type) := {
  p_success : bool;
  p_data : option T;
  p_message : string;
  p_errors : option (list string)
}.
Arguments p_success {T} _.
Arguments p_data {T} _.
Arguments p_message {T} _.
Arguments p_errors {T} _.

Module post_service.
Section service.
Context {U : UuidLib} {S : PostSchemas}.

(** Modelled from the spec: [get_post_by_id] is missing; a lookup by the
    identity of section 3. *)
Definition get_post_by_id (db : PostDb.t) (post_id : UUID) : option Post.t :=
  find (fun p => bool_decide (Post.id p = post_id)) (PostDb.posts db).

(** Modelled from the spec: [get_post_by_slug] is missing; a lookup by the
    unique slug of section 3. *)
Definition get_post_by_slug (db : PostDb.t) (slug : string) : option Post.t :=
  find (fun p => bool_decide (Post.slug p = slug)) (PostDb.posts db).

(** Modelled from the spec: a write to the rows of the posts table by a
    missing service function; the other table is untouched. *)
Definition map_posts (f : Post.t -> Post.t) (db : PostDb.t) : PostDb.t :=
  {| PostDb.posts := map f (PostDb.posts db);
     PostDb.profiles := PostDb.profiles db |}.

(** Modelled from the spec: the row after the missing
    [increment_view_count], [view_count = view_count + 1] on the post of
    that id. *)
Definition counted (post_id : UUID) (p : Post.t) : Post.t :=
  if bool_decide (Post.id p = post_id)
  then Post.with_view_count (Post.view_count p + 1) p
  else p.

(** Modelled from the spec: [increment_view_count] is missing. Sections
    4.5 and 5: the persistent counter of the post grows by exactly one,
    in a single [count = count + 1] statement. *)
Definition increment_view_count (db : PostDb.t) (post_id : UUID) : PostDb.t :=
  map_posts (counted post_id) db.

(** Modelled from the spec: one filter of the missing [list_posts]; a
    filter that is not given lets every post through. *)
Definition filter_by {A} (arg : option A) (test : A -> Post.t -> bool)
    (p : Post.t) : bool :=
  match arg with
  | None => true
  | Some a => test a p
  end.

(** Modelled from the spec: the join of the missing [list_posts] with the
    author's display name (section 4.4). *)
Definition username_of (db : PostDb.t) (p : Post.t) : option string :=
  PostDb.profiles db !! string_of_uuid (Post.author_id p).

(** Modelled from the spec: [list_posts] is missing. Section 4.4: the
    filters that are given are applied conjunctively, the page is cut with
    [skip] and [limit], each post comes with its author's display name,
    and the number of all matching posts is returned with the page. It
    reads and does not write. *)
Definition list_posts (db : PostDb.t) (status : option string)
    (author_id : option UUID) (tag search : option string) (skip limit : Z)
  : list (Post.t * option string) * Z :=
  let matching :=
    List.filter
      (fun p =>
         filter_by status (fun s p => bool_decide (Post.status p = s)) p
         && filter_by author_id (fun a p => bool_decide (Post.author_id p = a)) p
         && filter_by tag (fun t p => existsb (tag_matches t) (Post.tags p)) p
         && filter_by search search_matches p)
      (PostDb.posts db) in
  (map (fun p => (p, username_of db p)) (offset_limit skip limit matching),
   Z.of_nat (length matching)).

(** Modelled from the spec: [create_post] is missing; section 3, a post is
    created by an authenticated author. *)
Definition create_post (db : PostDb.t) (user_id : UUID) (post_data : PostCreate)
    (new_id : UUID) (now : datetime.t) : Post.t * PostDb.t :=
  let post := new_post post_data user_id new_id now in
  (post, {| PostDb.posts := PostDb.posts db ++ [post];
            PostDb.profiles := PostDb.profiles db |}).

(** Modelled from the spec: [update_post] is missing. Section 3: a post is
    updated only by its author; [None] is the answer for a post that is
    absent or not the caller's. *)
Definition update_post (db : PostDb.t) (post_id user_id : UUID)
    (post_data : PostUpdate) (now : datetime.t) : option Post.t * PostDb.t :=
  match get_post_by_id db post_id with
  | None => (None, db)
  | Some post =>
      if bool_decide (Post.author_id post = user_id) then
        let post' := apply_update post_data now post in
        (Some post',
         map_posts (fun p => if bool_decide (Post.id p = post_id)
                             then post' else p) db)
      else (None, db)
  end.

(** Modelled from the spec: [get_posts_by_author] is missing. Section 6,
    posts by author: the listing of section 4.4 with the author as its only
    filter. *)
Definition get_posts_by_author (db : PostDb.t) (author_id : UUID)
    (skip limit : Z) : list (Post.t * option string) * Z :=
  list_posts db None (Some author_id) None None skip limit.
End service.
End post_service.

(** ** Post service: [app/routers/posts.py] *)

Module posts.
Section router.
Context {U : UuidLib} {J : JwtLib} {S : PostSchemas}.

Record Env := { new_id : UUID; now : datetime.t }.

(** [get_current_user_id]. The [HTTPException] raised for a missing
    subject is not a [JWTError] and passes through the [except]; so does
    the [ValueError] of [uuid.UUID]. *)
Definition get_current_user_id (token : string) : Result UUID :=
  match jwt_decode token (JWT_SECRET_KEY settings) [JWT_ALGORITHM settings] with
  | None => HTTPException 401 "Invalid authentication credentials"
  | Some payload =>
      match payload !! "sub" with
      | None => HTTPException 401 "Invalid authentication credentials"
      | Some user_id =>
          match uuid_of_string user_id with
          | Some u => Ok u
          | None => Unhandled "ValueError"
          end
      end
  end.

(** The tokens without a verified subject: a token whose verification
    fails, a token without [sub]. *)
Definition rejected (token : string) : Prop :=
  jwt_decode token (JWT_SECRET_KEY settings) [JWT_ALGORITHM settings] = None
  \/ exists payload,
       jwt_decode token (JWT_SECRET_KEY settings) [JWT_ALGORITHM settings]
       = Some payload
       /\ payload !! "sub" = None.

(** [str.lower] on the letters of ASCII. *)
Definition lower_char (c : ascii) : ascii :=
  let n := nat_of_ascii c in
  if Nat.leb 65 n && Nat.leb n 90 then ascii_of_nat (n + 32) else c.

Fixpoint lower (s : string) : string :=
  match s with
  | EmptyString => EmptyString
  | String c s' => String (lower_char c) (lower s')
  end.

(** [value.partition(" ")]: the text before the first space and the text
    after it; all of it and nothing when there is no space. *)
Fixpoint partition_space (value : string) : string * string :=
  match value with
  | EmptyString => (EmptyString, EmptyString)
  | String c rest =>
      if Ascii.eqb c " "%char then (EmptyString, rest)
      else let '(scheme, param) := partition_space rest in
           (String c scheme, param)
  end.

Definition is_empty (s : string) : bool :=
  match s with
  | EmptyString => true
  | String _ _ => false
  end.

(** [security = HTTPBearer()], as FastAPI 0.115 defines it: the
    [Authorization] header of the request is split into scheme and
    credentials; a request without the header, without a scheme or without
    credentials is answered with 403 by the dependency itself, and so is a
    scheme other than [bearer]. *)
Definition security (authorization : option string) : Result string :=
  let '(scheme, credentials) :=
    match authorization with
    | None => (EmptyString, EmptyString)
    | Some value => partition_space value
    end in
  if is_empty (default EmptyString authorization) || is_empty scheme
     || is_empty credentials
  then HTTPException 403 "Not authenticated"
  else if negb (String.eqb (lower scheme) "bearer")
  then HTTPException 403 "Invalid authentication credentials"
  else Ok credentials.

(** [credentials = Depends(security)]: the handler runs with the
    credentials the dependency returns; when the dependency raises, the
    handler does not run. *)
Definition secured {A} (authorization : option string)
    (handler : string -> PostDb.t -> Result A * PostDb.t) (db : PostDb.t)
  : Result A * PostDb.t :=
  match security authorization with
  | Ok credentials => handler credentials db
  | HTTPException s d => (HTTPException s d, db)
  end.

Record TagDict := { t_id : string; t_name : string; t_slug : string }.

Definition tag_dict (t : Tag.t) : TagDict :=
  {| t_id := string_of_uuid (Tag.id t); t_name := Tag.name t;
     t_slug := Tag.slug t |}.

(** An item of a listing. *)
Record PostSummary := {
  s_id : string;
  s_author_id : string;
  s_author_username : option string;
  s_title : string;
  s_slug : string;
  s_summary : string;
  s_status : string;
  s_view_count : Z;
  s_tags : list TagDict;
  s_created_at : string;
  s_published_at : option string
}.

Definition post_summary (post : Post.t) (username : option string)
  : PostSummary :=
  {| s_id := string_of_uuid (Post.id post);
     s_author_id := string_of_uuid (Post.author_id post);
     s_author_username := username;
     s_title := Post.title post;
     s_slug := Post.slug post;
     s_summary := Post.summary post;
     s_status := Post.status post;
     s_view_count := Post.view_count post;
     s_tags := map tag_dict (Post.tags post);
     s_created_at := isoformat (Post.created_at post);
     s_published_at := isoformat <$> Post.published_at post |}.

Record Pagination := {
  total : Z;
  page : Z;
  limit : Z;
  total_pages : Z;
  has_next : bool;
  has_prev : bool
}.

Record Listing := {
  items : list PostSummary;
  pagination : Pagination
}.

(** [Query(None, pattern="^(draft|published|archived)$")]. *)
Definition status_ok (status : option string) : bool :=
  match status with
  | None => true
  | Some s => bool_decide (s ∈ ["draft"; "published"; "archived"])
  end.

(** [uuid.UUID(author_id) if author_id else None]; the empty string is
    falsy. *)
Definition author_filter (author_id : option string)
  : Raises (option UUID) :=
  match author_id with
  | None => Returns None
  | Some s =>
      if bool_decide (s = EmptyString) then Returns None
      else match uuid_of_string s with
           | Some u => Returns (Some u)
           | None => ValueError "badly formed hexadecimal UUID string"
           end
  end.

(** [GET /]. *)
Definition list_all_posts (page limit : Z) (status author_id tag search : option string)
    (db : PostDb.t) : Result (PostAPIResponse Listing) * PostDb.t :=
  if negb (1 <=? page) || negb (1 <=? limit) || negb (limit <=? 100)
     || negb (status_ok status)
  then (RequestValidationError, db)
  else
    let skip := (page - 1) * limit in
    match author_filter author_id with
    | ValueError e => (Unhandled e, db)
    | Returns author_uuid =>
        let '(results, total) :=
          post_service.list_posts db status author_uuid tag search skip limit in
        let total_pages := (total + limit - 1) / limit in
        (Ok {| p_success := true;
               p_data := Some
                 {| items := map (fun '(post, username) =>
                                    post_summary post username) results;
                    pagination :=
                      {| total := total; page := page; limit := limit;
                         total_pages := total_pages;
                         has_next := page <? total_pages;
                         has_prev := 1 <? page |} |};
               p_message := "Posts retrieved successfully";
               p_errors := None |}, db)
    end.

(** The data of [GET /{slug}/]. *)
Record PostDetail := {
  d_id : string;
  d_author_id : string;
  d_author_username : option string;
  d_title : string;
  d_slug : string;
  d_content : string;
  d_summary : string;
  d_status : string;
  d_view_count : Z;
  d_tags : list TagDict;
  d_created_at : string;
  d_updated_at : string;
  d_published_at : option string
}.

(** The session holds one object for each row it has loaded, under the
    primary key of the row. [increment_view_count] writes and commits
    through the same session, after which the attributes of [post] are
    loaded again when they are next read: [post] then shows the row as it
    is stored now. *)
Definition reloaded (db : PostDb.t) (post : Post.t) : Post.t :=
  default post (post_service.get_post_by_id db (Post.id post)).

(** [GET /{slug}/]. The response is built after [increment_view_count] has
    run, from the session's object [post]: its [view_count] is already the
    incremented one when the router adds 1 to it. *)
Definition get_post (slug : string) (db : PostDb.t)
  : Result (PostAPIResponse PostDetail) * PostDb.t :=
  match post_service.get_post_by_slug db slug with
  | None => (HTTPException 404 "Post not found", db)
  | Some post =>
      let db' := post_service.increment_view_count db (Post.id post) in
      let post := reloaded db' post in
      let author_username :=
        PostDb.profiles db' !! string_of_uuid (Post.author_id post) in
      (Ok {| p_success := true;
             p_data := Some
               {| d_id := string_of_uuid (Post.id post);
                  d_author_id := string_of_uuid (Post.author_id post);
                  d_author_username := author_username;
                  d_title := Post.title post;
                  d_slug := Post.slug post;
                  d_content := Post.content post;
                  d_summary := Post.summary post;
                  d_status := Post.status post;
                  d_view_count := Post.view_count post + 1;
                  d_tags := map tag_dict (Post.tags post);
                  d_created_at := isoformat (Post.created_at post);
                  d_updated_at := isoformat (Post.updated_at post);
                  d_published_at := isoformat <$> Post.published_at post |};
             p_message := "Post retrieved successfully";
             p_errors := None |}, db')
  end.
(** The data of the answers to a creation and to an update. *)
Record PostBrief := {
  b_id : string;
  b_slug : string;
  b_title : string;
  b_status : string;
  b_stamp : string
}.

(** [POST /]. *)
Definition create_new_post (post_data : PostCreate) (credentials : string)
    (env : Env) (db : PostDb.t)
  : Result (PostAPIResponse PostBrief) * PostDb.t :=
  let token := credentials in
  match get_current_user_id token with
  | HTTPException s d => (HTTPException s d, db)
  | Ok user_id =>
      let '(post, db') :=
        post_service.create_post db user_id post_data (new_id env) (now env) in
      (Ok {| p_success := true;
             p_data := Some
               {| b_id := string_of_uuid (Post.id post);
                  b_slug := Post.slug post;
                  b_title := Post.title post;
                  b_status := Post.status post;
                  b_stamp := isoformat (Post.created_at post) |};
             p_message := "Post created successfully";
             p_errors := None |}, db')
  end.

(** The lookup both [update_existing_post] and [delete_existing_post]
    start with: by id when the identifier parses as a UUID, then by
    slug. *)
Definition find_post (db : PostDb.t) (post_identifier : string)
  : option Post.t :=
  let post :=
    match uuid_of_string post_identifier with
    | Some u => post_service.get_post_by_id db u
    | None => None
    end in
  match post with
  | Some p => Some p
  | None => post_service.get_post_by_slug db post_identifier
  end.

(** [PUT /{post_identifier}/]. *)
Definition update_existing_post (post_identifier : string)
    (post_data : PostUpdate) (credentials : string) (env : Env)
    (db : PostDb.t) : Result (PostAPIResponse PostBrief) * PostDb.t :=
  let token := credentials in
  match get_current_user_id token with
  | HTTPException s d => (HTTPException s d, db)
  | Ok user_id =>
      match find_post db post_identifier with
      | None =>
          (HTTPException 404 "Post not found or you don't have permission", db)
      | Some post =>
          if bool_decide (Post.author_id post <> user_id)
          then (HTTPException 403
                  "You don't have permission to update this post", db)
          else
            match post_service.update_post db (Post.id post) user_id
                    post_data (now env) with
            | (None, db') =>
                (HTTPException 404
                   "Post not found or you don't have permission", db')
            | (Some updated_post, db') =>
                (Ok {| p_success := true;
                       p_data := Some
                         {| b_id := string_of_uuid (Post.id updated_post);
                            b_slug := Post.slug updated_post;
                            b_title := Post.title updated_post;
                            b_status := Post.status updated_post;
                            b_stamp := isoformat (Post.updated_at updated_post) |};
                       p_message := "Post updated successfully";
                       p_errors := None |}, db')
            end
      end
  end.

(** [db.delete(post); db.commit()]: the row of the post leaves the
    table. *)
Definition db_delete (db : PostDb.t) (post : Post.t) : PostDb.t :=
  {| PostDb.posts :=
       List.filter (fun p => negb (bool_decide (Post.id p = Post.id post)))
         (PostDb.posts db);
     PostDb.profiles := PostDb.profiles db |}.

(** [DELETE /{post_identifier}/]. *)
Definition delete_existing_post (post_identifier : string)
    (credentials : string) (db : PostDb.t)
  : Result (PostAPIResponse unit) * PostDb.t :=
  let token := credentials in
  match get_current_user_id token with
  | HTTPException s d => (HTTPException s d, db)
  | Ok user_id =>
      match find_post db post_identifier with
      | None => (HTTPException 404 "Post not found", db)
      | Some post =>
          if bool_decide (Post.author_id post <> user_id)
          then (HTTPException 403
                  "You don't have permission to delete this post", db)
          else
            (Ok {| p_success := true; p_data := None;
                   p_message := "Post deleted successfully";
                   p_errors := None |}, db_delete db post)
      end
  end.

(** [GET /authors/{author_id}/posts]. The id of the path is converted with
    no [try] around it. *)
Definition get_posts_by_author_id (author_id : string) (page limit : Z)
    (db : PostDb.t) : Result (PostAPIResponse Listing) * PostDb.t :=
  if negb (1 <=? page) || negb (1 <=? limit) || negb (limit <=? 100)
  then (RequestValidationError, db)
  else
    let skip := (page - 1) * limit in
    match uuid_of_string author_id with
    | None => (Unhandled "ValueError", db)
    | Some author =>
        let '(results, total) :=
          post_service.get_posts_by_author db author skip limit in
        let total_pages := (total + limit - 1) / limit in
        (Ok {| p_success := true;
               p_data := Some
                 {| items := map (fun '(post, username) =>
                                    post_summary post username) results;
                    pagination :=
                      {| total := total; page := page; limit := limit;
                         total_pages := total_pages;
                         has_next := page <? total_pages;
                         has_prev := 1 <? page |} |};
               p_message := "Author posts retrieved successfully";
               p_errors := None |}, db)
    end.
End router.
End posts.

(** ** The reply tree, as section 4.1 describes it *)

Section reply_tree.
Context {U : UuidLib}.

Definition created_le (a b : Comment.t) : Prop :=
  datetime.le (Comment.created_at a) (Comment.created_at b) = true.

(** [rs] are exactly the active comments whose parent is [parent], each
    once, in ascending [created_at]. *)
Definition replies_of (db : list Comment.t) (parent : UUID)
    (rs : list Comment.t) : Prop :=
  rs ≡ₚ List.filter (CommentService.is_reply_to parent) db
  /\ StronglySorted created_le rs.

(** The response record [d] carries the fields of the row [c], and its
    flag says whether the row was edited. *)
Definition carries (c : Comment.t) (d : CommentInDB.t) : Prop :=
  CommentInDB.id d = Comment.id c
  /\ CommentInDB.post_id d = Comment.post_id c
  /\ CommentInDB.author_id d = Comment.author_id c
  /\ CommentInDB.parent_id d = Comment.parent_id c
  /\ CommentInDB.content d = Comment.content c
  /\ CommentInDB.is_deleted d = Comment.is_deleted c
  /\ CommentInDB.created_at d = Comment.created_at c
  /\ CommentInDB.updated_at d = Comment.updated_at c
  /\ CommentInDB.edited_at d = Comment.edited_at c
  /\ CommentInDB.edited d = bool_decide (is_Some (Comment.edited_at c)).

(** [t] is the reply tree of [c]: the root carries the fields of [c], and
    the children of every node are the trees of its replies. *)
Inductive reply_tree (db : list Comment.t)
  : Comment.t -> CommentWithReplies -> Prop :=
| reply_tree_node c d rs ts :
    carries c d ->
    replies_of db (Comment.id c) rs ->
    Forall2 (reply_tree db) rs ts ->
    reply_tree db c (WithReplies d ts).

(** The comments of the thread under [root]: the root, and every active
    reply to a comment of the thread. *)
Inductive in_thread (db : list Comment.t) (root : UUID) : UUID -> Prop :=
| in_thread_root : in_thread db root root
| in_thread_reply p r :
    in_thread db root p -> r ∈ db ->
    CommentService.is_reply_to p r = true ->
    in_thread db root (Comment.id r).

(** The parent pointers of the thread under [root] do not loop: some rank
    decreases from every comment of the thread to each of its replies.
    Rows outside the thread are not concerned. *)
Definition thread_ranked (db : list Comment.t) (root : UUID)
    (rank : UUID -> nat) : Prop :=
  forall p r, in_thread db root p -> r ∈ db ->
              CommentService.is_reply_to p r = true ->
              (rank (Comment.id r) < rank p)%nat.

(** The number of levels of a tree. *)
Fixpoint height (t : CommentWithReplies) : nat :=
  match t with
  | WithReplies _ ts => S (foldr (fun t' m => Nat.max (height t') m) O ts)
  end.
End reply_tree.

(** [q] is the ceiling of [total / size]. *)
Definition is_ceil_div (q total size : Z) : Prop :=
  (q - 1) * size < total <= q * size.

(** ** The label, read back

    What the label of section 4.3 must show, said without the functions
    that print it: numerals are read back into numbers. *)

(** The number a string of decimal digits denotes, read after [acc];
    [None] when a character is not a digit. *)
Fixpoint numeral_from (acc : Z) (s : string) : option Z :=
  match s with
  | EmptyString => Some acc
  | String c s' =>
      let n := Z.of_nat (nat_of_ascii c) in
      if (48 <=? n) && (n <=? 57)
      then numeral_from (acc * 10 + (n - 48)) s'
      else None
  end.

Definition numeral (s : string) : option Z :=
  match s with
  | EmptyString => None
  | String _ _ => numeral_from 0 s
  end.

(** [s] is the numeral of [n] on exactly [width] digits. *)
Definition digits_of (width : nat) (n : Z) (s : string) : Prop :=
  String.length s = width /\ numeral s = Some n.

(** The English abbreviation of the month [m]. *)
Definition month_name (m : Z) (s : string) : Prop :=
  match m with
  | 1 => s = "Jan" | 2 => s = "Feb" | 3 => s = "Mar" | 4 => s = "Apr"
  | 5 => s = "May" | 6 => s = "Jun" | 7 => s = "Jul" | 8 => s = "Aug"
  | 9 => s = "Sep" | 10 => s = "Oct" | 11 => s = "Nov" | 12 => s = "Dec"
  | _ => False
  end.

(** [label] is [edited - Mon DD, YYYY hh:mm AM/PM] for the time [d]: the
    day and the minute on two digits, the year written out without a
    leading zero (four digits from the year 1000 on), the hour on two
    digits on the 12-hour clock, between 1 and 12, and the half of the
    day. *)
Definition shows_edit (d : datetime.t) (label : string) : Prop :=
  exists mon dd yyyy hh mm half h12,
    label = ("edited - " ++ mon ++ " " ++ dd ++ ", " ++ yyyy ++ " "
               ++ hh ++ ":" ++ mm ++ " " ++ half)%string
    /\ month_name (datetime.month d) mon
    /\ digits_of 2 (datetime.day d) dd
    /\ numeral yyyy = Some (datetime.year d)
    /\ (forall rest, yyyy <> String "0" rest)
    /\ (1000 <= datetime.year d -> String.length yyyy = 4%nat)
    /\ digits_of 2 h12 hh
    /\ 1 <= h12 <= 12
    /\ (datetime.hour d - h12) mod 12 = 0
    /\ digits_of 2 (datetime.minute d) mm
    /\ (half = "AM" /\ datetime.hour d < 12
        \/ half = "PM" /\ 12 <= datetime.hour d).

(** ** A post before and after a request *)

(** [p'] is [p] in everything but its counter. *)
Definition same_but_views {U : UuidLib} (p p' : Post.t) : Prop :=
  Post.id p' = Post.id p
  /\ Post.author_id p' = Post.author_id p
  /\ Post.title p' = Post.title p
  /\ Post.slug p' = Post.slug p
  /\ Post.content p' = Post.content p
  /\ Post.summary p' = Post.summary p
  /\ Post.status p' = Post.status p
  /\ Post.tags p' = Post.tags p
  /\ Post.created_at p' = Post.created_at p
  /\ Post.updated_at p' = Post.updated_at p
  /\ Post.published_at p' = Post.published_at p.

(** ** Concrete libraries, for running the model

    Ids are natural numbers printed in lower-case hexadecimal; the parser
    also accepts leading zeros, as [uuid.UUID] accepts other spellings than
    the canonical one. A token is
    [key.subject], or the bare key for a token without a subject. *)
Module Fixtures.
Definition hex_of_string (s : string) : option N :=
  N.of_hex_uint <$> NilEmpty.uint_of_string s.
Definition string_of_hex (n : N) : string :=
  NilEmpty.string_of_uint (N.to_hex_uint n).

Definition hex_roundtrip (n : N) : hex_of_string (string_of_hex n) = Some n :=
  eq_trans
    (f_equal (fmap N.of_hex_uint) (NilEmpty.usu (N.to_hex_uint n)))
    (f_equal Some (HexadecimalN.Unsigned.of_to n)).

#[export] Instance hex_uuid : UuidLib := {|
  UUID := N;
  uuid_of_string := hex_of_string;
  string_of_uuid := string_of_hex;
  uuid_of_string_of_uuid := hex_roundtrip
|}.

Definition strip_key (key token : string) : option string :=
  if String.prefix (key ++ ".")%string token
  then Some (String.substring (S (String.length key))
               (String.length token - S (String.length key))%nat token)
  else None.

Definition toy_decode (token key : string) (algorithms : list string)
  : option Payload :=
  match strip_key key token with
  | Some sub => Some {[ "sub" := sub ]}
  | None => if String.eqb token key then Some ∅ else None
  end.

#[export] Instance toy_jwt : JwtLib := {|
  settings := {| JWT_SECRET_KEY := "k"; JWT_ALGORITHM := "HS256" |};
  jwt_decode := toy_decode
|}.

Definition noon : datetime.t :=
  {| datetime.year := 2024; datetime.month := 1; datetime.day := 2;
     datetime.hour := 15; datetime.minute := 4; datetime.second := 0;
     datetime.microsecond := 0 |}.

Definition at_minute (m : Z) : datetime.t :=
  {| datetime.year := 2024; datetime.month := 1; datetime.day := 2;
     datetime.hour := 9; datetime.minute := m; datetime.second := 0;
     datetime.microsecond := 0 |}.

(** A comment [i] on post 100 by [author], replying to [parent], created
    at minute [m]. *)
Definition comment (i author : N) (parent : option N) (m : Z)
    (deleted : bool) : Comment.t :=
  {| Comment.id := i; Comment.post_id := 100%N; Comment.author_id := author;
     Comment.parent_id := parent; Comment.content := "text";
     Comment.is_deleted := deleted; Comment.created_at := at_minute m;
     Comment.updated_at := at_minute m; Comment.edited_at := None |}.

(** Comment 1 with replies 3 (minute 5) and 2 (minute 7), a deleted reply
    4, and a reply 5 to the reply 2. *)
Definition thread : list Comment.t :=
  [ comment 1 10 None 0 false;
    comment 2 11 (Some 1%N) 7 false;
    comment 3 12 (Some 1%N) 5 false;
    comment 4 11 (Some 1%N) 6 true;
    comment 5 10 (Some 2%N) 9 false ].

(** A body that names post [p]. *)
Definition body_on (p : option N) : CommentCreate.t :=
  {| CommentCreate.content := "hello"; CommentCreate.post_id := p;
     CommentCreate.parent_id := None |}.

(** The same table with one more comment, 9, which is its own parent. *)
Definition thread_beside_loop : list Comment.t :=
  thread ++ [ comment 9 12 (Some 9%N) 3 false ].

Definition thread_rank (i : N) : nat :=
  match i with
  | 1%N => 2%nat
  | 2%N => 1%nat
  | _ => 0%nat
  end.

Definition comment_env : comments.Env :=
  {| comments.new_id := 6%N; comments.now := noon;
     comments.recursion_limit := 1000 |}.

Definition retitled (title : string) (now : datetime.t) (p : Post.t)
  : Post.t :=
  {| Post.id := Post.id p; Post.author_id := Post.author_id p;
     Post.title := title; Post.slug := Post.slug p;
     Post.content := Post.content p; Post.summary := Post.summary p;
     Post.status := Post.status p; Post.view_count := Post.view_count p;
     Post.tags := Post.tags p; Post.created_at := Post.created_at p;
     Post.updated_at := now; Post.published_at := Post.published_at p |}.

(** A post is created from its slug and updated by a new title. *)
#[export] Instance toy_posts : PostSchemas := {|
  PostCreate := string;
  PostUpdate := string;
  new_post slug author i now :=
    {| Post.id := i; Post.author_id := author; Post.title := slug;
       Post.slug := slug; Post.content := EmptyString;
       Post.summary := EmptyString; Post.status := "draft";
       Post.view_count := 0; Post.tags := [];
       Post.created_at := now; Post.updated_at := now;
       Post.published_at := None |};
  apply_update := retitled;
  tag_matches t tag := String.eqb t (Tag.slug tag);
  search_matches q p := String.eqb q (Post.title p)
|}.

Definition post (i author : N) (slug : string) (views : Z) : Post.t :=
  {| Post.id := i; Post.author_id := author; Post.title := slug;
     Post.slug := slug; Post.content := "body"; Post.summary := "sum";
     Post.status := "published"; Post.view_count := views;
     Post.tags := []; Post.created_at := at_minute 0;
     Post.updated_at := at_minute 0; Post.published_at := None |}.

(** Three posts; post 1 is by user 10 (hexadecimal [a]). *)
Definition blog : PostDb.t :=
  {| PostDb.posts := [ post 1 10 "first" 5; post 2 11 "second" 0;
                       post 3 10 "third" 7 ];
     PostDb.profiles := {[ "a" := "alice" ]} |}.

Definition post_env : posts.Env :=
  {| posts.new_id := 4%N; posts.now := noon |}.

(** An interpreter that allows no nested call at all. *)
Definition flat_env : comments.Env :=
  {| comments.new_id := 6%N; comments.now := noon;
     comments.recursion_limit := 0 |}.

(** A response record built by hand: never edited, yet with a label. *)
Definition stale_label : CommentInDB.t :=
  {| CommentInDB.content := "text"; CommentInDB.id := 1%N;
     CommentInDB.post_id := 100%N; CommentInDB.author_id := 10%N;
     CommentInDB.parent_id := None; CommentInDB.is_deleted := false;
     CommentInDB.created_at := noon; CommentInDB.updated_at := noon;
     CommentInDB.edited_at := None; CommentInDB.edited := true;
     CommentInDB.edited_at_formatted := Some "edited - long ago" |}.

(** Comment 1 of the thread after an edit at [noon]. *)
Definition edited_comment : Comment.t :=
  {| Comment.id := 1%N; Comment.post_id := 100%N; Comment.author_id := 10%N;
     Comment.parent_id := None; Comment.content := "better";
     Comment.is_deleted := false; Comment.created_at := at_minute 0;
     Comment.updated_at := noon; Comment.edited_at := Some noon |}.

(** An edit in the year 999. *)
Definition long_ago : datetime.t :=
  {| datetime.year := 999; datetime.month := 1; datetime.day := 2;
     datetime.hour := 15; datetime.minute := 4; datetime.second := 0;
     datetime.microsecond := 0 |}.

(** Half a minute after [noon]. *)
Definition noon_and_a_half : datetime.t :=
  {| datetime.year := 2024; datetime.month := 1; datetime.day := 2;
     datetime.hour := 15; datetime.minute := 4; datetime.second := 30;
     datetime.microsecond := 0 |}.
End Fixtures.
(** * Properties *)

(** ** Strings and the order of datetimes *)

Lemma append_nil_r (s : string) : (s ++ EmptyString)%string = s.
Proof.
  induction s as [|a s IH]; [reflexivity|].
  change (String a (s ++ EmptyString)%string = String a s). by rewrite IH.
Qed.

Lemma number_four_digits (n : Z) :
  1000 <= n -> datetime.number n = datetime.pad4 n.
Proof.
  intros Hn. unfold datetime.number.
  destruct (Z.ltb_spec n 10); [lia|]. destruct (Z.ltb_spec n 100); [lia|].
  destruct (Z.ltb_spec n 1000); [lia|]. done.
Qed.

(** What [strftime] makes of the format of the label. *)
Lemma strftime_edited_format_parts d :
  ("edited - " ++ datetime.strftime CommentInDB.edited_format d)%string
  = ("edited - " ++ datetime.month_abbr (datetime.month d) ++ " "
       ++ datetime.pad2 (datetime.day d) ++ ", "
       ++ datetime.number (datetime.year d) ++ " "
       ++ datetime.pad2 (datetime.hour12 (datetime.hour d)) ++ ":"
       ++ datetime.pad2 (datetime.minute d) ++ " "
       ++ datetime.am_pm (datetime.hour d))%string.
Proof.
  unfold CommentInDB.edited_format. cbn [datetime.strftime].
  unfold datetime.directive. cbn [Ascii.eqb Bool.eqb].
  rewrite append_nil_r. reflexivity.
Qed.

Lemma strftime_edited_format d :
  1000 <= datetime.year d ->
  ("edited - " ++ datetime.strftime CommentInDB.edited_format d)%string
  = edited_label d.
Proof.
  intros Hy. rewrite strftime_edited_format_parts. unfold edited_label.
  by rewrite number_four_digits.
Qed.

Lemma lex_le_total a b :
  datetime.lex_le a b = false -> datetime.lex_le b a = true.
Proof.
  revert b. induction a as [|x a IH]; intros [|y b]; cbn; try done.
  destruct (Z.ltb_spec x y), (Z.ltb_spec y x); try done; try lia.
  apply IH.
Qed.

Lemma lex_le_trans a b c :
  datetime.lex_le a b = true -> datetime.lex_le b c = true ->
  datetime.lex_le a c = true.
Proof.
  revert b c. induction a as [|x a IH]; intros [|y b] [|z c]; cbn; try done.
  destruct (Z.ltb_spec x y), (Z.ltb_spec y x), (Z.ltb_spec y z),
    (Z.ltb_spec z y), (Z.ltb_spec x z), (Z.ltb_spec z x);
    try done; try lia.
  apply IH.
Qed.

Section ordering.
Context {U : UuidLib}.

#[local] Instance created_le_trans : Transitive created_le.
Proof. intros a b c. unfold created_le, datetime.le. apply lex_le_trans. Qed.

Lemma created_le_total a b : ~ created_le a b -> created_le b a.
Proof.
  unfold created_le, datetime.le. intros H. apply lex_le_total.
  by destruct (datetime.lex_le _ _).
Qed.

Lemma insert_by_created_at_perm c l :
  CommentService.insert_by_created_at c l ≡ₚ c :: l.
Proof.
  induction l as [|x l IH]; [done|].
  cbn [CommentService.insert_by_created_at].
  destruct (datetime.le _ _); [done|].
  rewrite IH. apply Permutation_swap.
Qed.

Lemma order_by_created_at_perm l :
  CommentService.order_by_created_at l ≡ₚ l.
Proof.
  induction l as [|c l IH]; [done|].
  unfold CommentService.order_by_created_at in *. cbn [foldr].
  rewrite insert_by_created_at_perm. by rewrite IH.
Qed.

Lemma insert_by_created_at_sorted c l :
  Sorted created_le l ->
  Sorted created_le (CommentService.insert_by_created_at c l).
Proof.
  induction 1 as [|x l Hs IH Hhd]; cbn [CommentService.insert_by_created_at].
  - repeat constructor.
  - destruct (datetime.le (Comment.created_at c) (Comment.created_at x)) eqn:E.
    + constructor; [by constructor|]. by constructor.
    + constructor; [exact IH|].
      assert (created_le x c) as Hxc.
      { apply created_le_total. unfold created_le. by rewrite E. }
      destruct Hhd as [|y l' Hxy]; cbn [CommentService.insert_by_created_at].
      * by constructor.
      * destruct (datetime.le (Comment.created_at c) (Comment.created_at y));
          by constructor.
Qed.

Lemma order_by_created_at_sorted l :
  StronglySorted created_le (CommentService.order_by_created_at l).
Proof.
  apply Sorted_StronglySorted; [apply created_le_trans|].
  induction l as [|c l IH]; [constructor|].
  unfold CommentService.order_by_created_at in *. cbn [foldr].
  by apply insert_by_created_at_sorted.
Qed.

Lemma get_replies_spec db parent :
  replies_of db parent (CommentService.get_replies db parent).
Proof.
  split; [apply order_by_created_at_perm | apply order_by_created_at_sorted].
Qed.

Lemma get_replies_elem db parent r :
  r ∈ CommentService.get_replies db parent ->
  r ∈ db /\ CommentService.is_reply_to parent r = true.
Proof.
  unfold CommentService.get_replies. rewrite order_by_created_at_perm.
  rewrite list_elem_of_In, filter_In, <- list_elem_of_In. tauto.
Qed.
End ordering.

(** ** Reading one comment *)

Section reading.
Context {U : UuidLib}.

Lemma get_by_id_Some db comment_id c :
  CommentService.get_by_id db comment_id = Some c ->
  c ∈ db /\ Comment.id c = comment_id /\ Comment.is_deleted c = false.
Proof.
  unfold CommentService.get_by_id, CommentService.is_active. intros H.
  apply find_some in H as [Hin Hc].
  apply andb_prop in Hc as [Hid Hact].
  apply bool_decide_eq_true in Hid. apply negb_true_iff in Hact.
  by rewrite list_elem_of_In.
Qed.

Lemma get_by_id_None db comment_id :
  CommentService.get_by_id db comment_id = None <->
  (forall c, c ∈ db -> Comment.id c = comment_id ->
             Comment.is_deleted c = true).
Proof.
  unfold CommentService.get_by_id, CommentService.is_active. split.
  - intros H c Hin Hid. rewrite list_elem_of_In in Hin.
    pose proof (find_none _ _ H c Hin) as Hc. cbn in Hc.
    rewrite bool_decide_eq_true_2 in Hc by done. cbn in Hc.
    by apply negb_false_iff.
  - intros H. destruct (find _ db) as [c|] eqn:E; [|done].
    apply find_some in E as [Hin Hc].
    apply andb_prop in Hc as [Hid Hact].
    apply bool_decide_eq_true in Hid. apply negb_true_iff in Hact.
    rewrite <- list_elem_of_In in Hin. rewrite (H c Hin Hid) in Hact. done.
Qed.

Lemma mapM_Forall2 {A B} (f : A -> option B) (P : A -> B -> Prop) l :
  Forall (fun x => exists y, f x = Some y /\ P x y) l ->
  exists k, mapM f l = Some k /\ Forall2 P l k.
Proof.
  induction 1 as [|x l (y & Hy & HP) _ (k & Hk & HF)].
  - by exists [].
  - exists (y :: k). split; [|by constructor].
    cbn. rewrite Hy. cbn. by rewrite Hk.
Qed.

Lemma model_validate_carries c : carries c (CommentInDB.model_validate c).
Proof.
  unfold carries, CommentInDB.model_validate, CommentInDB.compute_edited_flag.
  cbn [CommentInDB.id CommentInDB.post_id CommentInDB.author_id
       CommentInDB.parent_id CommentInDB.content CommentInDB.is_deleted
       CommentInDB.created_at CommentInDB.updated_at CommentInDB.edited_at
       CommentInDB.edited].
  repeat split. apply bool_decide_ext.
  destruct (Comment.edited_at c).
  - split; [eauto | done].
  - split; [done | by intros [? ?]].
Qed.

(** The recursion ends on every comment of the thread whose rank is below
    the number of nested calls allowed, and what it returns is the reply
    tree. *)
Lemma build_comment_tree_spec db root rank :
  thread_ranked db root rank ->
  forall depth c,
    in_thread db root (Comment.id c) ->
    (rank (Comment.id c) < depth)%nat ->
    exists t, CommentService.build_comment_tree depth db c = Some t
              /\ reply_tree db c t.
Proof.
  intros Hrank. induction depth as [|depth IH]; intros c Hthread Hc; [lia|].
  cbn [CommentService.build_comment_tree].
  destruct (mapM_Forall2 (CommentService.build_comment_tree depth db)
              (reply_tree db)
              (CommentService.get_replies db (Comment.id c))) as (ts & Hts & HF).
  { apply Forall_forall. intros r Hr.
    apply get_replies_elem in Hr as [Hin Hrep].
    apply IH; [by eapply in_thread_reply|].
    specialize (Hrank _ r Hthread Hin Hrep). lia. }
  rewrite Hts. cbn. eexists. split; [done|].
  econstructor; [apply model_validate_carries | apply get_replies_spec
                | exact HF].
Qed.

Lemma reply_tree_root db c t : reply_tree db c t -> carries c (node_data t).
Proof. by intros [c' d rs ts Hd _ _]. Qed.

Lemma reply_tree_leaf db c t :
  reply_tree db c t ->
  List.filter (CommentService.is_reply_to (Comment.id c)) db = [] ->
  node_replies t = [].
Proof.
  intros Ht Hnone. destruct Ht as [c d rs ts _ [Hperm _] HF]. cbn.
  rewrite Hnone in Hperm. apply Permutation_nil_r in Hperm. subst rs.
  by inversion HF.
Qed.

(** A tree has more levels than each of its replies. *)
Lemma height_reply d t ts :
  t ∈ ts -> (height t < height (WithReplies d ts))%nat.
Proof.
  cbn [height]. induction ts as [|t' ts IH]; intros Hin.
  - by apply elem_of_nil in Hin.
  - cbn [foldr]. apply elem_of_cons in Hin as [->|Hin]; [lia|].
    specialize (IH Hin). lia.
Qed.
End reading.


(** In the table with the looping comment 9, the thread under comment 1
    is made of the comments 1, 2, 3 and 5. *)
Lemma thread_of_one p :
  in_thread (U:=Fixtures.hex_uuid) Fixtures.thread_beside_loop 1%N p ->
  p = 1%N \/ p = 2%N \/ p = 3%N \/ p = 5%N.
Proof.
  induction 1 as [|p r _ IH Hr Hrep]; [auto|].
  apply andb_prop in Hrep as [Hpar Hact]. apply bool_decide_eq_true in Hpar.
  unfold Fixtures.thread_beside_loop, Fixtures.thread in Hr. cbn [app] in Hr.
  repeat (apply elem_of_cons in Hr as [->|Hr]);
    [.. | by apply elem_of_nil in Hr];
    cbn in Hpar, Hact |- *; try discriminate Hpar; try discriminate Hact;
    injection Hpar as <-;
    first [ by auto | by exfalso; intuition discriminate ].
Defined.

Lemma thread_beside_loop_ranked :
  thread_ranked (U:=Fixtures.hex_uuid) Fixtures.thread_beside_loop 1%N
    Fixtures.thread_rank.
Proof.
  intros p r Hp Hr Hrep. apply thread_of_one in Hp.
  apply andb_prop in Hrep as [Hpar _]. apply bool_decide_eq_true in Hpar.
  unfold Fixtures.thread_beside_loop, Fixtures.thread in Hr. cbn [app] in Hr.
  repeat (apply elem_of_cons in Hr as [->|Hr]);
    [.. | by apply elem_of_nil in Hr];
    cbn in Hpar |- *; try discriminate Hpar; injection Hpar as <-;
    first [ cbn; lia | by exfalso; intuition discriminate ].
Defined.

Example get_comment_thread :
  fst (comments.get_comment (U:=Fixtures.hex_uuid) 1%N true
         Fixtures.comment_env Fixtures.thread)
  = Ok (APIResponse_data
          (WithReplies
             (CommentInDB.model_validate (Fixtures.comment 1 10 None 0 false))
             [ WithReplies
                 (CommentInDB.model_validate
                    (Fixtures.comment 3 12 (Some 1%N) 5 false)) [];
               WithReplies
                 (CommentInDB.model_validate
                    (Fixtures.comment 2 11 (Some 1%N) 7 false))
                 [ WithReplies
                     (CommentInDB.model_validate
                        (Fixtures.comment 5 10 (Some 2%N) 9 false)) [] ] ])).
Proof. vm_compute. reflexivity. Qed.


(** On a looping thread the recursion never ends, whatever nesting is
    allowed, and no tree at all would do: comment 9 is its own reply. *)
Lemma looping_replies :
  CommentService.get_replies (U:=Fixtures.hex_uuid)
    Fixtures.thread_beside_loop 9%N
  = [ Fixtures.comment 9 12 (Some 9%N) 3 false ].
Proof. vm_compute. reflexivity. Qed.

Lemma looping_never_ends depth :
  CommentService.build_comment_tree (U:=Fixtures.hex_uuid) depth
    Fixtures.thread_beside_loop (Fixtures.comment 9 12 (Some 9%N) 3 false)
  = None.
Proof.
  induction depth as [|depth IH]; [done|].
  cbn [CommentService.build_comment_tree].
  change (Comment.id (Fixtures.comment 9 12 (Some 9%N) 3 false)) with 9%N.
  rewrite looping_replies. cbn [mapM]. by rewrite IH.
Qed.

Lemma looping_has_no_tree n : forall t,
  (height t < n)%nat ->
  ~ reply_tree (U:=Fixtures.hex_uuid) Fixtures.thread_beside_loop
      (Fixtures.comment 9 12 (Some 9%N) 3 false) t.
Proof.
  induction n as [|n IH]; intros t Hn Ht; [lia|].
  inversion Ht as [c d rs ts _ [Hperm _] HF Hc Hd]; subst.
  change (List.filter _ _) with [Fixtures.comment 9 12 (Some 9%N) 3 false]
    in Hperm.
  apply Permutation_singleton_r in Hperm. subst rs.
  inversion HF as [|c t' rs' ts' Ht' HF']; subst.
  apply (IH t'); [|exact Ht'].
  pose proof (height_reply d t' (t' :: ts') ltac:(by left)). lia.
Qed.


(** ** The edited flag *)

(** *** The printed label, read back *)

Lemma digit_value (k : Z) :
  Z.of_nat (nat_of_ascii (datetime.digit k)) = 48 + k mod 10.
Proof.
  unfold datetime.digit. pose proof (Z.mod_pos_bound k 10 ltac:(lia)).
  rewrite nat_ascii_embedding by lia. lia.
Qed.

Lemma numeral_from_digit (acc k : Z) (s : string) :
  numeral_from acc (String (datetime.digit k) s)
  = numeral_from (acc * 10 + k mod 10) s.
Proof.
  cbn [numeral_from]. rewrite digit_value.
  pose proof (Z.mod_pos_bound k 10 ltac:(lia)).
  destruct (Z.leb_spec 48 (48 + k mod 10)); [|lia].
  destruct (Z.leb_spec (48 + k mod 10) 57); [|lia].
  cbn [andb]. f_equal. lia.
Qed.

Lemma digit_not_zero (k : Z) (rest s : string) :
  k mod 10 <> 0 -> String (datetime.digit k) s <> String "0" rest.
Proof.
  intros Hk [= H _]. apply (f_equal (fun c => Z.of_nat (nat_of_ascii c))) in H.
  rewrite digit_value in H.
  change (Z.of_nat (nat_of_ascii "0")) with 48 in H. lia.
Qed.

Lemma pad2_digits (n : Z) :
  0 <= n < 100 -> digits_of 2 n (datetime.pad2 n).
Proof.
  intros Hn. split; [reflexivity|]. unfold datetime.pad2, numeral.
  rewrite !numeral_from_digit. cbn [numeral_from]. f_equal.
  Z.div_mod_to_equations. lia.
Qed.

Lemma number_numeral (n : Z) :
  1 <= n < 10000 ->
  numeral (datetime.number n) = Some n
  /\ (forall rest, datetime.number n <> String "0" rest)
  /\ (1000 <= n -> String.length (datetime.number n) = 4%nat).
Proof.
  intros Hn. unfold datetime.number, datetime.pad4, datetime.pad2.
  destruct (Z.ltb_spec n 10); [|destruct (Z.ltb_spec n 100);
    [|destruct (Z.ltb_spec n 1000)]].
  all: split; [|split; [|first [lia | reflexivity]]].
  all: try (unfold numeral; rewrite !numeral_from_digit; cbn [numeral_from];
            f_equal; Z.div_mod_to_equations; lia).
  all: intros rest; apply digit_not_zero; Z.div_mod_to_equations; lia.
Qed.

Lemma month_abbr_name (m : Z) :
  1 <= m <= 12 -> month_name m (datetime.month_abbr m).
Proof.
  intros Hm.
  assert (m = 1 \/ m = 2 \/ m = 3 \/ m = 4 \/ m = 5 \/ m = 6 \/ m = 7
          \/ m = 8 \/ m = 9 \/ m = 10 \/ m = 11 \/ m = 12) as Hcases by lia.
  repeat destruct Hcases as [->|Hcases]; try subst m; reflexivity.
Qed.

Lemma hour12_clock (h : Z) :
  0 <= h < 24 ->
  1 <= datetime.hour12 h <= 12 /\ (h - datetime.hour12 h) mod 12 = 0.
Proof.
  unfold datetime.hour12. intros Hh.
  destruct (Z.eqb_spec (h mod 12) 0); Z.div_mod_to_equations; lia.
Qed.

Lemma am_pm_half (h : Z) :
  datetime.am_pm h = "AM" /\ h < 12 \/ datetime.am_pm h = "PM" /\ 12 <= h.
Proof. unfold datetime.am_pm. destruct (Z.ltb_spec h 12); auto. Qed.

(** The label [strftime] prints for a valid time is the label asked for. *)
Lemma strftime_shows_edit (d : datetime.t) :
  datetime.valid d ->
  shows_edit d
    ("edited - " ++ datetime.strftime CommentInDB.edited_format d)%string.
Proof.
  intros (Hy & Hm & Hd & Hh & Hmi & _).
  destruct (number_numeral (datetime.year d)) as (Hnum & Hzero & Hfour);
    [lia|].
  destruct (hour12_clock (datetime.hour d) Hh) as [Hrange Hmod].
  rewrite strftime_edited_format_parts.
  exists (datetime.month_abbr (datetime.month d)),
    (datetime.pad2 (datetime.day d)), (datetime.number (datetime.year d)),
    (datetime.pad2 (datetime.hour12 (datetime.hour d))),
    (datetime.pad2 (datetime.minute d)), (datetime.am_pm (datetime.hour d)),
    (datetime.hour12 (datetime.hour d)).
  split; [reflexivity|]. split; [by apply month_abbr_name|].
  split; [apply pad2_digits; lia|]. split; [done|]. split; [done|].
  split; [done|]. split; [apply pad2_digits; lia|]. split; [done|].
  split; [done|]. split; [apply pad2_digits; lia|]. apply am_pm_half.
Qed.

(** C4. In every comment response [edited] is true exactly when
    [edited_at] is set, and then the label is made from [edited_at] and
    from nothing else: whatever [edited] and [edited_at_formatted] held
    before the validator is overwritten, and two records with the same
    [edited_at] get the same flag and the same label. For a valid time the
    label reads [edited - Mon DD, YYYY hh:mm AM/PM]: the English
    abbreviation of the month, day and minute on two digits, the year
    written out (four digits from the year 1000 on), the hour of the
    12-hour clock on two digits and the half of the day. A response made
    from a stored row has the label of the row's [edited_at], or none; the
    row itself has no column for it. *)
Theorem edited_flag_derived {U : UuidLib} (self : CommentInDB.t)
    (row : Comment.t) :
  let r := CommentInDB.compute_edited_flag self in
  (CommentInDB.edited r = true <-> CommentInDB.edited_at self <> None)
  /\ CommentInDB.edited_at r = CommentInDB.edited_at self
  /\ match CommentInDB.edited_at self with
     | Some d =>
         CommentInDB.edited r = true
         /\ exists label,
              CommentInDB.edited_at_formatted r = Some label
              /\ (datetime.valid d -> shows_edit d label)
     | None => CommentInDB.edited r = false
     end
  /\ (forall other,
        CommentInDB.edited_at other = CommentInDB.edited_at self ->
        CommentInDB.edited (CommentInDB.compute_edited_flag other)
        = CommentInDB.edited r
        /\ (CommentInDB.edited_at self <> None ->
            CommentInDB.edited_at_formatted
              (CommentInDB.compute_edited_flag other)
            = CommentInDB.edited_at_formatted r))
  /\ CommentInDB.edited (CommentInDB.model_validate row)
     = bool_decide (is_Some (Comment.edited_at row))
  /\ match Comment.edited_at row with
     | Some d =>
         exists label,
           CommentInDB.edited_at_formatted (CommentInDB.model_validate row)
           = Some label
           /\ (datetime.valid d -> shows_edit d label)
     | None =>
         CommentInDB.edited_at_formatted (CommentInDB.model_validate row)
         = None
     end.
Proof.
  unfold CommentInDB.model_validate, CommentInDB.compute_edited_flag.
  cbn [CommentInDB.edited CommentInDB.edited_at CommentInDB.edited_at_formatted].
  split; [|split; [|split; [|split; [|split]]]].
  - split; [by intros ?%bool_decide_eq_true|].
    intros H. by apply bool_decide_eq_true_2.
  - done.
  - destruct (CommentInDB.edited_at self) as [d|]; [|done].
    split; [done|]. eexists. split; [reflexivity|]. apply strftime_shows_edit.
  - intros other ->. split; [done|].
    by destruct (CommentInDB.edited_at self).
  - apply bool_decide_ext. destruct (Comment.edited_at row).
    + split; [eauto | done].
    + split; [done | by intros [? ?]].
  - destruct (Comment.edited_at row) as [d|]; [|done].
    eexists. split; [reflexivity|]. apply strftime_shows_edit.
Qed.

Lemma edited_flag_derived_witness :
  exists label,
    CommentInDB.edited_at_formatted
      (CommentInDB.model_validate (U:=Fixtures.hex_uuid)
         Fixtures.edited_comment)
    = Some label
    /\ shows_edit Fixtures.noon label.
Proof.
  destruct (edited_flag_derived (U:=Fixtures.hex_uuid) Fixtures.stale_label
              Fixtures.edited_comment) as (_ & _ & _ & _ & _ & H).
  destruct H as (label & Hlabel & Hshows). exists label. split; [done|].
  apply Hshows. unfold datetime.valid. cbn. lia.
Defined.

Example edited_labels :
  CommentInDB.edited_at_formatted
    (CommentInDB.model_validate (U:=Fixtures.hex_uuid) Fixtures.edited_comment)
  = Some "edited - Jan 02, 2024 03:04 PM"
  /\ ("edited - "
        ++ datetime.strftime CommentInDB.edited_format Fixtures.long_ago)%string
     = "edited - Jan 02, 999 03:04 PM".
Proof. split; vm_compute; reflexivity. Qed.

Example edited_label_example :
  edited_label Fixtures.noon = "edited - Jan 02, 2024 03:04 PM".
Proof. reflexivity. Qed.

(** ** Creating comments *)

Section creating.
Context {U : UuidLib} {J : JwtLib}.

Lemma get_current_user_accepts token payload sub :
  jwt_decode token (JWT_SECRET_KEY settings) [JWT_ALGORITHM settings]
  = Some payload ->
  payload !! "sub" = Some sub ->
  comments.get_current_user token = Ok {[ "user_id" := sub ]}.
Proof. intros Hd Hs. unfold comments.get_current_user. by rewrite Hd, Hs. Qed.

Lemma caller_uuid_singleton sub :
  comments.caller_uuid {[ "user_id" := sub ]}
  = match uuid_of_string sub with
    | Some u => comments.Caller u
    | None => comments.CallerValueError
    end.
Proof. unfold comments.caller_uuid. by rewrite lookup_singleton_eq. Qed.

Lemma schema_of_dump post_id body :
  comments.content_ok (CommentCreate.content body) = true ->
  comments.CommentCreateSchema
    (<[ "post_id" := PyUUID post_id ]> (comments.model_dump body))
  = Some {| CommentCreate.content := CommentCreate.content body;
            CommentCreate.post_id := Some post_id;
            CommentCreate.parent_id := CommentCreate.parent_id body |}.
Proof.
  intros Hok. unfold comments.CommentCreateSchema, comments.model_dump.
  rewrite lookup_insert_ne by done. rewrite lookup_insert_eq. rewrite Hok.
  rewrite lookup_insert_eq. cbn.
  do 3 (rewrite lookup_insert_ne by done). rewrite lookup_insert_eq.
  by destruct (CommentCreate.parent_id body).
Qed.
End creating.

(** C5. A comment created with a token whose verified subject is the user
    id [u] is stored with [author_id = u], whatever the request body holds;
    the body has no field for the author. A body without a post makes no
    row. *)
Theorem create_comment_author_is_caller {U : UuidLib} {J : JwtLib}
    (token sub : string) (payload : Payload) (u : UUID)
    (body : CommentCreate.t) (env : comments.Env) (db : list Comment.t) :
  jwt_decode token (JWT_SECRET_KEY settings) [JWT_ALGORITHM settings]
  = Some payload ->
  payload !! "sub" = Some sub ->
  uuid_of_string sub = Some u ->
  match CommentCreate.post_id body with
  | Some post =>
      exists c,
        comments.authenticated token
          (fun current_user => comments.create_comment body current_user env) db
        = (Ok (APIResponse_data (CommentInDB.model_validate c)), db ++ [c])
        /\ Comment.author_id c = u
        /\ Comment.post_id c = post
        /\ Comment.content c = CommentCreate.content body
        /\ Comment.parent_id c = CommentCreate.parent_id body
  | None =>
      comments.authenticated token
        (fun current_user => comments.create_comment body current_user env) db
      = (HTTPException 400 "post_id is required", db)
  end.
Proof.
  intros Hd Hs Hu. unfold comments.authenticated.
  rewrite (get_current_user_accepts _ _ _ Hd Hs).
  unfold comments.create_comment. rewrite caller_uuid_singleton, Hu.
  unfold CommentService.create.
  destruct (CommentCreate.post_id body) as [post|]; [|done].
  eexists. split; [reflexivity|]. done.
Qed.

Lemma create_comment_author_is_caller_witness :
  exists c,
    comments.authenticated (U:=Fixtures.hex_uuid) (J:=Fixtures.toy_jwt) "k.a"
      (fun current_user =>
         comments.create_comment (Fixtures.body_on (Some 100%N)) current_user
           Fixtures.comment_env) Fixtures.thread
    = (Ok (APIResponse_data (CommentInDB.model_validate c)),
       Fixtures.thread ++ [c])
    /\ Comment.author_id c = 10%N.
Proof.
  destruct (create_comment_author_is_caller
              (U:=Fixtures.hex_uuid) (J:=Fixtures.toy_jwt)
              "k.a" "a" {[ "sub" := "a" ]} 10%N
              (Fixtures.body_on (Some 100%N)) Fixtures.comment_env
              Fixtures.thread) as (c & Hc & Ha & _);
    [reflexivity | reflexivity | reflexivity |].
  exists c. by split.
Defined.

(** C10. [POST /comments/post/{post_id}] stores the comment under the
    [post_id] of the path: a [post_id] in the body is overridden, and the
    request is not rejected for it. *)
Theorem create_comment_by_post_uses_path {U : UuidLib}
    (post_id u : UUID) (body : CommentCreate.t)
    (current_user : gmap string string) (env : comments.Env)
    (db : list Comment.t) :
  comments.content_ok (CommentCreate.content body) = true ->
  comments.caller_uuid current_user = comments.Caller u ->
  exists c,
    comments.create_comment_by_post post_id body current_user env db
    = (Ok (APIResponse_data (CommentInDB.model_validate c)), db ++ [c])
    /\ Comment.post_id c = post_id
    /\ Comment.author_id c = u
    /\ Comment.content c = CommentCreate.content body
    /\ Comment.parent_id c = CommentCreate.parent_id body.
Proof.
  intros Hok Hu. unfold comments.create_comment_by_post.
  rewrite (schema_of_dump _ _ Hok), Hu. unfold CommentService.create.
  cbn [CommentCreate.post_id]. eexists. split; [reflexivity|]. done.
Qed.

Lemma create_comment_by_post_uses_path_witness :
  exists c,
    comments.create_comment_by_post (U:=Fixtures.hex_uuid) 100%N
      (Fixtures.body_on (Some 999%N)) {[ "user_id" := "a" ]}
      Fixtures.comment_env Fixtures.thread
    = (Ok (APIResponse_data (CommentInDB.model_validate c)),
       Fixtures.thread ++ [c])
    /\ Comment.post_id c = 100%N.
Proof.
  destruct (create_comment_by_post_uses_path (U:=Fixtures.hex_uuid)
              100%N 10%N (Fixtures.body_on (Some 999%N))
              {[ "user_id" := "a" ]} Fixtures.comment_env Fixtures.thread)
    as (c & Hc & Hp & _); [reflexivity | reflexivity |].
  exists c. by split.
Defined.

(** ** Deleting comments *)

Section deleting.
Context {U : UuidLib}.

Lemma get_by_id_soft_deleted db c now :
  CommentService.get_by_id
    (CommentService.replace_row (CommentService.soft_deleted c now) db)
    (Comment.id c) = None.
Proof.
  apply get_by_id_None. intros c' Hin Hid.
  unfold CommentService.replace_row in Hin.
  apply list_elem_of_fmap in Hin as (x & -> & _).
  cbn [CommentService.soft_deleted Comment.id] in *.
  case_bool_decide as Hx; [done|]. congruence.
Qed.

Lemma delete_not_found db comment_id author_id now :
  CommentService.get_by_id db comment_id = None ->
  CommentService.delete db comment_id author_id now = (false, db).
Proof. intros H. unfold CommentService.delete. by rewrite H. Qed.

Lemma delete_not_owner db comment_id author_id now c :
  CommentService.get_by_id db comment_id = Some c ->
  Comment.author_id c <> author_id ->
  CommentService.delete db comment_id author_id now = (false, db).
Proof.
  intros H Hne. unfold CommentService.delete. rewrite H.
  by rewrite bool_decide_eq_false_2.
Qed.

Lemma delete_owner db comment_id now c :
  CommentService.get_by_id db comment_id = Some c ->
  CommentService.delete db comment_id (Comment.author_id c) now
  = (true, CommentService.replace_row (CommentService.soft_deleted c now) db).
Proof.
  intros H. unfold CommentService.delete. rewrite H.
  by rewrite bool_decide_eq_true_2.
Qed.
End deleting.

(** C3. [DELETE /comments/{id}] by an authenticated caller: when no active
    comment has the id, and when the comment exists but is not the
    caller's, the answer is one and the same 404, and nothing is written;
    when the comment is the caller's the answer is [{deleted: true}] and
    the comment is no longer an active one. *)
Theorem delete_comment_outcomes {U : UuidLib} (comment_id u : UUID)
    (current_user : gmap string string) (env : comments.Env)
    (db : list Comment.t) :
  comments.caller_uuid current_user = comments.Caller u ->
  match CommentService.get_by_id db comment_id with
  | None =>
      comments.delete_comment comment_id current_user env db
      = (HTTPException 404 "Comment not found or not authorized", db)
  | Some c =>
      if bool_decide (Comment.author_id c = u) then
        exists db',
          comments.delete_comment comment_id current_user env db
          = (Ok (APIResponse_data {[ "deleted" := true ]}), db')
          /\ CommentService.get_by_id db' comment_id = None
      else
        comments.delete_comment comment_id current_user env db
        = (HTTPException 404 "Comment not found or not authorized", db)
  end.
Proof.
  intros Hu. unfold comments.delete_comment. rewrite Hu.
  destruct (CommentService.get_by_id db comment_id) as [c|] eqn:Hc.
  - case_bool_decide as Ha.
    + subst u. rewrite (delete_owner _ _ _ _ Hc). cbn.
      eexists. split; [reflexivity|].
      destruct (get_by_id_Some _ _ _ Hc) as (_ & <- & _).
      apply get_by_id_soft_deleted.
    + by rewrite (delete_not_owner _ _ _ _ _ Hc Ha).
  - by rewrite (delete_not_found _ _ _ _ Hc).
Qed.

Lemma delete_comment_outcomes_witness :
  comments.delete_comment (U:=Fixtures.hex_uuid) 2%N {[ "user_id" := "a" ]}
    Fixtures.comment_env Fixtures.thread
  = (HTTPException 404 "Comment not found or not authorized", Fixtures.thread)
  /\ comments.delete_comment (U:=Fixtures.hex_uuid) 7%N {[ "user_id" := "a" ]}
       Fixtures.comment_env Fixtures.thread
     = (HTTPException 404 "Comment not found or not authorized", Fixtures.thread)
  /\ exists db',
       comments.delete_comment (U:=Fixtures.hex_uuid) 1%N {[ "user_id" := "a" ]}
         Fixtures.comment_env Fixtures.thread
       = (Ok (APIResponse_data {[ "deleted" := true ]}), db').
Proof.
  split; [|split].
  - apply (delete_comment_outcomes (U:=Fixtures.hex_uuid) 2%N 10%N
             {[ "user_id" := "a" ]} Fixtures.comment_env Fixtures.thread).
    reflexivity.
  - apply (delete_comment_outcomes (U:=Fixtures.hex_uuid) 7%N 10%N
             {[ "user_id" := "a" ]} Fixtures.comment_env Fixtures.thread).
    reflexivity.
  - destruct (delete_comment_outcomes (U:=Fixtures.hex_uuid) 1%N 10%N
                {[ "user_id" := "a" ]} Fixtures.comment_env Fixtures.thread)
      as (db' & H & _); [reflexivity|].
    by exists db'.
Defined.

(** ** Ownership *)

Section ownership.
Context {U : UuidLib}.

(** The string test of [update_comment] rejects every caller whose id is
    not the author's. *)
Lemma other_caller_other_string (author u : UUID) (s : string) :
  uuid_of_string s = Some u -> author <> u -> string_of_uuid author <> s.
Proof.
  intros Hs Hne Heq. subst s. rewrite uuid_of_string_of_uuid in Hs.
  congruence.
Qed.

Lemma caller_uuid_Caller current_user u :
  comments.caller_uuid current_user = comments.Caller u <->
  exists s, current_user !! "user_id" = Some s /\ uuid_of_string s = Some u.
Proof.
  unfold comments.caller_uuid. split.
  - destruct (current_user !! "user_id") as [s|]; [|done].
    destruct (uuid_of_string s) as [u'|] eqn:E; [|done].
    intros [= ->]. eauto.
  - intros (s & -> & ->). done.
Qed.
End ownership.

(** C2. A caller whose id is not the record's [author_id] cannot change
    it. Updating a comment fails with 403, updating and deleting a post
    fail with 403, deleting a comment fails with 404; each of them fails
    with 404 when the record is absent; in all these cases the tables are
    left as they were. *)
Theorem non_author_is_refused {U : UuidLib} {J : JwtLib} {S : PostSchemas}
    (caller : UUID) (current_user : gmap string string) (token : string)
    (comment_id : UUID) (comment_in : CommentUpdate.t)
    (cenv : comments.Env) (cdb : list Comment.t)
    (post_identifier : string) (post_data : PostUpdate)
    (penv : posts.Env) (pdb : PostDb.t) :
  comments.caller_uuid current_user = comments.Caller caller ->
  posts.get_current_user_id token = Ok caller ->
  match CommentService.get_by_id cdb comment_id with
  | None =>
      comments.update_comment comment_id comment_in current_user cenv cdb
      = (HTTPException 404 "Comment not found", cdb)
      /\ comments.delete_comment comment_id current_user cenv cdb
         = (HTTPException 404 "Comment not found or not authorized", cdb)
  | Some c =>
      Comment.author_id c <> caller ->
      comments.update_comment comment_id comment_in current_user cenv cdb
      = (HTTPException 403 "Not authorized to update this comment", cdb)
      /\ comments.delete_comment comment_id current_user cenv cdb
         = (HTTPException 404 "Comment not found or not authorized", cdb)
  end
  /\ match posts.find_post pdb post_identifier with
     | None =>
         posts.update_existing_post post_identifier post_data token penv pdb
         = (HTTPException 404 "Post not found or you don't have permission",
            pdb)
         /\ posts.delete_existing_post post_identifier token pdb
            = (HTTPException 404 "Post not found", pdb)
     | Some p =>
         Post.author_id p <> caller ->
         posts.update_existing_post post_identifier post_data token penv pdb
         = (HTTPException 403 "You don't have permission to update this post",
            pdb)
         /\ posts.delete_existing_post post_identifier token pdb
            = (HTTPException 403 "You don't have permission to delete this post",
               pdb)
     end.
Proof.
  intros Hcu Htok. split.
  - unfold comments.update_comment, comments.delete_comment. rewrite Hcu.
    apply caller_uuid_Caller in Hcu as (s & Hs & Hu).
    destruct (CommentService.get_by_id cdb comment_id) as [c|] eqn:Hc.
    + intros Hne. rewrite Hs.
      rewrite bool_decide_eq_true_2
        by (by apply (other_caller_other_string _ caller)).
      by rewrite (delete_not_owner _ _ _ _ _ Hc Hne).
    + by rewrite (delete_not_found _ _ _ _ Hc).
  - unfold posts.update_existing_post, posts.delete_existing_post.
    rewrite Htok.
    destruct (posts.find_post pdb post_identifier) as [p|]; [|done].
    intros Hne. by rewrite bool_decide_eq_true_2.
Qed.

(** The author is let through: the comment is rewritten and marked as
    edited, the post leaves the table. *)
Example update_comment_by_author :
  let '(r, db') :=
    comments.update_comment (U:=Fixtures.hex_uuid) 1%N
      {| CommentUpdate.content := Some "better" |} {[ "user_id" := "a" ]}
      Fixtures.comment_env Fixtures.thread in
  (match r with
   | Ok resp =>
       (fun c => (CommentInDB.content c, CommentInDB.edited c,
                  CommentInDB.edited_at_formatted c)) <$> data resp
   | HTTPException _ _ => None
   end, Comment.content <$> CommentService.get_by_id db' 1%N)
  = (Some ("better", true, Some "edited - Jan 02, 2024 03:04 PM"),
     Some "better").
Proof. vm_compute. reflexivity. Qed.

Example delete_post_by_author :
  let '(r, db') :=
    posts.delete_existing_post (U:=Fixtures.hex_uuid) (J:=Fixtures.toy_jwt)
      "first" "k.a" Fixtures.blog in
  (status_of r, map Post.slug (PostDb.posts db'))
  = (200, ["second"; "third"]).
Proof. vm_compute. reflexivity. Qed.

Lemma non_author_is_refused_witness :
  (comments.update_comment (U:=Fixtures.hex_uuid) 2%N
     {| CommentUpdate.content := Some "mine now" |} {[ "user_id" := "a" ]}
     Fixtures.comment_env Fixtures.thread
   = (HTTPException 403 "Not authorized to update this comment",
      Fixtures.thread)
   /\ comments.delete_comment (U:=Fixtures.hex_uuid) 2%N {[ "user_id" := "a" ]}
        Fixtures.comment_env Fixtures.thread
      = (HTTPException 404 "Comment not found or not authorized",
         Fixtures.thread))
  /\ (posts.update_existing_post (U:=Fixtures.hex_uuid) (J:=Fixtures.toy_jwt)
        (S:=Fixtures.toy_posts) "second" "mine now" "k.a" Fixtures.post_env
        Fixtures.blog
      = (HTTPException 403 "You don't have permission to update this post",
         Fixtures.blog)
      /\ posts.delete_existing_post (U:=Fixtures.hex_uuid)
           (J:=Fixtures.toy_jwt) "second" "k.a" Fixtures.blog
         = (HTTPException 403 "You don't have permission to delete this post",
            Fixtures.blog)).
Proof.
  destruct (non_author_is_refused (U:=Fixtures.hex_uuid) (J:=Fixtures.toy_jwt)
              (S:=Fixtures.toy_posts) 10%N {[ "user_id" := "a" ]} "k.a" 2%N
              {| CommentUpdate.content := Some "mine now" |}
              Fixtures.comment_env Fixtures.thread "second" "mine now"
              Fixtures.post_env Fixtures.blog) as [Hc Hp];
    [reflexivity | reflexivity |].
  split; [apply Hc | apply Hp]; cbn; discriminate.
Defined.

(** ** View counts *)

Section views.
Context {U : UuidLib}.

Lemma counted_slug post_id p :
  Post.slug (post_service.counted post_id p) = Post.slug p.
Proof. unfold post_service.counted. by case_bool_decide. Qed.

Lemma find_slug_counted post_id slug l :
  find (fun p => bool_decide (Post.slug p = slug)) (map (post_service.counted post_id) l)
  = post_service.counted post_id <$> find (fun p => bool_decide (Post.slug p = slug)) l.
Proof.
  induction l as [|p l IH]; [done|]. cbn [map find].
  rewrite counted_slug. by case_bool_decide.
Qed.

Lemma increment_view_count_posts db post_id :
  PostDb.posts (post_service.increment_view_count db post_id)
  = map (post_service.counted post_id) (PostDb.posts db).
Proof. reflexivity. Qed.

Lemma counted_id post_id p :
  Post.id (post_service.counted post_id p) = Post.id p.
Proof. unfold post_service.counted. by case_bool_decide. Qed.

Lemma find_id_counted post_id u l :
  find (fun p => bool_decide (Post.id p = u))
    (map (post_service.counted post_id) l)
  = post_service.counted post_id
      <$> find (fun p => bool_decide (Post.id p = u)) l.
Proof.
  induction l as [|p l IH]; [done|]. cbn [map find].
  rewrite counted_id. by case_bool_decide.
Qed.

(** What [increment_view_count] does to one row, field by field. *)
Lemma counted_fields post_id p :
  same_but_views p (post_service.counted post_id p)
  /\ Post.view_count (post_service.counted post_id p)
     = Post.view_count p + (if bool_decide (Post.id p = post_id) then 1 else 0).
Proof.
  unfold post_service.counted, same_but_views.
  case_bool_decide; cbn; repeat split; lia.
Qed.

(** After the increment the session's object shows the incremented row. *)
Lemma reloaded_counted db post :
  post_service.get_post_by_id db (Post.id post) = Some post ->
  posts.reloaded (post_service.increment_view_count db (Post.id post)) post
  = post_service.counted (Post.id post) post.
Proof.
  intros Hpost. unfold posts.reloaded, post_service.get_post_by_id in *.
  by rewrite increment_view_count_posts, find_id_counted, Hpost.
Qed.
End views.



(** Post [first] has 5 views: after the request 6 are stored and 7 are
    reported. *)
Example get_post_first :
  let '(r, db') :=
    posts.get_post (U:=Fixtures.hex_uuid) "first" Fixtures.blog in
  (posts.d_view_count <$> (match r with Ok resp => p_data resp | _ => None end),
   map Post.view_count (PostDb.posts db'))
  = (Some 7, [6; 0; 7]).
Proof. vm_compute. reflexivity. Qed.

(** C7. [GET /posts/], with any page, limit and filters, whether it
    answers or rejects the request, leaves the database as it was: every
    post keeps its [view_count]. *)
Theorem list_all_posts_keeps_view_counts {U : UuidLib} {S : PostSchemas}
    (page limit : Z) (status author_id tag search : option string)
    (db : PostDb.t) :
  let db' :=
    snd (posts.list_all_posts page limit status author_id tag search db) in
  db' = db
  /\ map Post.view_count (PostDb.posts db')
     = map Post.view_count (PostDb.posts db)
  /\ forall post_id,
       Post.view_count <$> post_service.get_post_by_id db' post_id
       = Post.view_count <$> post_service.get_post_by_id db post_id.
Proof.
  assert (snd (posts.list_all_posts page limit status author_id tag search db)
          = db) as ->; [|done].
  unfold posts.list_all_posts.
  destruct (_ || _); [done|].
  destruct (posts.author_filter author_id); [|done].
  by destruct (post_service.list_posts _ _ _ _ _ _ _).
Qed.

Example list_all_posts_blog :
  let '(r, db') :=
    posts.list_all_posts (U:=Fixtures.hex_uuid) (S:=Fixtures.toy_posts)
      1 2 None (Some "a") None None Fixtures.blog in
  (match r with
   | Ok resp =>
       (fun l => (map posts.s_view_count (posts.items l),
                  posts.total (posts.pagination l),
                  posts.total_pages (posts.pagination l)))
         <$> p_data resp
   | _ => None
   end, map Post.view_count (PostDb.posts db'))
  = (Some ([5; 7], 2, 1), [5; 0; 7]).
Proof. vm_compute. reflexivity. Qed.

(** ** Pagination *)

Lemma pages_of_ceil (total size : Z) :
  1 <= size -> is_ceil_div (pages_of total size) total size.
Proof.
  intros Hsize. unfold is_ceil_div, pages_of.
  pose proof (Z.div_mod (total + size - 1) size ltac:(lia)) as Hdiv.
  pose proof (Z.mod_pos_bound (total + size - 1) size ltac:(lia)) as Hmod.
  nia.
Qed.

Lemma offset_limit_beyond {A} (skip limit : Z) (rows : list A) :
  Z.of_nat (length rows) <= skip -> offset_limit skip limit rows = [].
Proof.
  intros H. unfold offset_limit. rewrite drop_ge by lia. apply take_nil.
Qed.

(** A page after the last one starts at or after the end of the rows. *)
Lemma beyond_last_page (total page size : Z) :
  1 <= size -> pages_of total size < page -> total <= (page - 1) * size.
Proof.
  intros Hsize Hpage. destruct (pages_of_ceil total size Hsize) as [_ Hle].
  nia.
Qed.

(** C8. The two paginated listings, comments of a post and posts: a page
    below 1 or a size outside 1..100 is rejected as a validation error;
    otherwise the answer carries the number of all matching rows, the page
    and the size as asked, and [total_pages], which is the ceiling of
    [total / size] over the integers; a page after the last one is
    answered with an empty list of items and the same metadata. *)
Theorem pagination_contract {U : UuidLib} {S : PostSchemas}
    (cdb : list Comment.t) (post_id : UUID) (pdb : PostDb.t)
    (status author_id tag search : option string) (author : option UUID)
    (page size : Z) :
  posts.status_ok status = true ->
  posts.author_filter author_id = Returns author ->
  (page < 1 \/ size < 1 \/ 100 < size ->
   comments.get_comments_by_post post_id page size cdb
   = (RequestValidationError, cdb)
   /\ posts.list_all_posts page size status author_id tag search pdb
      = (RequestValidationError, pdb))
  /\ (1 <= page -> 1 <= size <= 100 ->
      exists cr pr listing,
        comments.get_comments_by_post post_id page size cdb = (Ok cr, cdb)
        /\ PaginatedResponse.total cr
           = Z.of_nat (length (List.filter (CommentListing.on_post post_id) cdb))
        /\ PaginatedResponse.page cr = page
        /\ PaginatedResponse.page_size cr = size
        /\ PaginatedResponse.total_pages cr
           = pages_of (PaginatedResponse.total cr) size
        /\ is_ceil_div (PaginatedResponse.total_pages cr)
             (PaginatedResponse.total cr) size
        /\ (PaginatedResponse.total_pages cr < page ->
            data (PaginatedResponse.envelope cr) = Some [])
        /\ posts.list_all_posts page size status author_id tag search pdb
           = (Ok pr, pdb)
        /\ p_data pr = Some listing
        /\ posts.total (posts.pagination listing)
           = snd (post_service.list_posts pdb status author tag search 0 size)
        /\ posts.page (posts.pagination listing) = page
        /\ posts.limit (posts.pagination listing) = size
        /\ posts.total_pages (posts.pagination listing)
           = pages_of (posts.total (posts.pagination listing)) size
        /\ is_ceil_div (posts.total_pages (posts.pagination listing))
             (posts.total (posts.pagination listing)) size
        /\ (posts.total_pages (posts.pagination listing) < page ->
            posts.items listing = []
            /\ posts.has_next (posts.pagination listing) = false)).
Proof.
  intros Hstatus Hauthor. split.
  - intros Hbad. unfold comments.get_comments_by_post, posts.list_all_posts.
    assert (negb (1 <=? page) || negb (1 <=? size) || negb (size <=? 100)
            = true) as ->; [|done].
    destruct (Z.leb_spec 1 page), (Z.leb_spec 1 size), (Z.leb_spec size 100);
      cbn; try done; lia.
  - intros Hpage [Hlo Hhi].
    unfold comments.get_comments_by_post, posts.list_all_posts.
    assert (negb (1 <=? page) || negb (1 <=? size) || negb (size <=? 100)
            = false) as ->.
    { destruct (Z.leb_spec 1 page), (Z.leb_spec 1 size), (Z.leb_spec size 100);
        cbn; try done; lia. }
    rewrite Hstatus, Hauthor. cbn [negb orb].
    unfold post_service.list_posts, CommentListing.get_by_post.
    cbn [CommentListing.total CommentListing.page CommentListing.page_size
         CommentListing.items].
    eexists _, _, _. split; [reflexivity|].
    cbn [PaginatedResponse.total PaginatedResponse.page
         PaginatedResponse.page_size PaginatedResponse.total_pages
         PaginatedResponse.envelope data APIResponse_data].
    split; [done|]. split; [done|]. split; [done|]. split; [done|].
    split; [by apply pages_of_ceil|].
    split.
    { intros Hbeyond. rewrite offset_limit_beyond; [done|].
      by apply beyond_last_page. }
    split; [reflexivity|]. split; [reflexivity|].
    cbn [posts.pagination posts.total posts.page posts.limit
         posts.total_pages posts.items posts.has_next snd].
    split; [done|]. split; [done|]. split; [done|]. split; [done|].
    split; [by apply pages_of_ceil|].
    intros Hbeyond. split.
    + rewrite offset_limit_beyond; [done|]. by apply beyond_last_page.
    + apply Z.ltb_ge. unfold pages_of in Hbeyond. lia.
Qed.

Lemma pagination_contract_witness :
  (comments.get_comments_by_post (U:=Fixtures.hex_uuid) 100%N 1 101
     Fixtures.thread
   = (RequestValidationError, Fixtures.thread)
   /\ posts.list_all_posts (U:=Fixtures.hex_uuid) (S:=Fixtures.toy_posts)
        1 101 None None None None Fixtures.blog
      = (RequestValidationError, Fixtures.blog))
  /\ exists cr pr listing,
       comments.get_comments_by_post (U:=Fixtures.hex_uuid) 100%N 3 3
         Fixtures.thread
       = (Ok cr, Fixtures.thread)
       /\ PaginatedResponse.total cr = 4
       /\ PaginatedResponse.total_pages cr = 2
       /\ data (PaginatedResponse.envelope cr) = Some []
       /\ posts.list_all_posts (U:=Fixtures.hex_uuid) (S:=Fixtures.toy_posts)
            3 3 None None None None Fixtures.blog
          = (Ok pr, Fixtures.blog)
       /\ p_data pr = Some listing
       /\ posts.total (posts.pagination listing) = 3
       /\ posts.total_pages (posts.pagination listing) = 1
       /\ posts.items listing = [].
Proof.
  split.
  - apply (pagination_contract (U:=Fixtures.hex_uuid) (S:=Fixtures.toy_posts)
             Fixtures.thread 100%N Fixtures.blog None None None None None
             1 101); [reflexivity | reflexivity | lia].
  - destruct (pagination_contract (U:=Fixtures.hex_uuid)
                (S:=Fixtures.toy_posts) Fixtures.thread 100%N Fixtures.blog
                None None None None None 3 3) as [_ H];
      [reflexivity | reflexivity |].
    destruct H as (cr & pr & listing & Hc & Ht & _ & _ & Htp & _ & Hempty
                   & Hp & Hd & Hpt & _ & _ & Hptp & _ & Hpempty); [lia | lia |].
    exists cr, pr, listing.
    rewrite Htp, Ht in *. rewrite Hptp, Hpt in *.
    repeat split; try done.
    + by apply Hempty.
    + by apply Hpempty.
Defined.

(** ** Bearer tokens *)

Section tokens.
Context {U : UuidLib} {J : JwtLib}.

Lemma rejected_401 token :
  posts.rejected token ->
  posts.get_current_user_id token
  = HTTPException 401 "Invalid authentication credentials".
Proof.
  unfold posts.get_current_user_id, posts.rejected.
  intros [H | (payload & H & Hsub)].
  - by rewrite H.
  - by rewrite H, Hsub.
Qed.

Lemma rejected_comments_401 token :
  posts.rejected token ->
  comments.get_current_user token
  = HTTPException 401 "Invalid authentication credentials".
Proof.
  unfold comments.get_current_user, posts.rejected.
  intros [H | (payload & H & Hsub)].
  - by rewrite H.
  - by rewrite H, Hsub.
Qed.

(** A request with the header [Authorization: Bearer token] reaches the
    handler with the token. *)
Lemma security_bearer token :
  token <> EmptyString ->
  posts.security (Some ("Bearer " ++ token)%string) = Ok token.
Proof.
  intros Hne. unfold posts.security.
  change (posts.partition_space ("Bearer " ++ token)%string)
    with ("Bearer", token).
  by destruct token.
Qed.
End tokens.




(** * Further properties of the routers *)

(** ** Identities that are not UUIDs *)

(** X1. A token that verifies but whose subject is not the text of a UUID
    is not answered with 401: the [ValueError] of [uuid.UUID] is no
    [JWTError], nothing catches it, and creating, updating and deleting a
    post all end with 500, with nothing written. *)
Theorem subject_not_uuid_is_unhandled {U : UuidLib} {J : JwtLib}
    {S : PostSchemas} (token sub : string) (payload : Payload)
    (post_data : PostCreate) (post_update : PostUpdate)
    (post_identifier : string) (env : posts.Env) (db : PostDb.t) :
  jwt_decode token (JWT_SECRET_KEY settings) [JWT_ALGORITHM settings]
  = Some payload ->
  payload !! "sub" = Some sub ->
  uuid_of_string sub = None ->
  posts.get_current_user_id token = HTTPException 500 "ValueError"
  /\ posts.create_new_post post_data token env db
     = (HTTPException 500 "ValueError", db)
  /\ posts.update_existing_post post_identifier post_update token env db
     = (HTTPException 500 "ValueError", db)
  /\ posts.delete_existing_post post_identifier token db
     = (HTTPException 500 "ValueError", db).
Proof.
  intros Hd Hs Hu.
  assert (posts.get_current_user_id token = HTTPException 500 "ValueError")
    as H.
  { unfold posts.get_current_user_id. by rewrite Hd, Hs, Hu. }
  unfold posts.create_new_post, posts.update_existing_post,
    posts.delete_existing_post.
  by rewrite H.
Qed.

Lemma subject_not_uuid_is_unhandled_witness :
  posts.get_current_user_id (U:=Fixtures.hex_uuid) (J:=Fixtures.toy_jwt)
    "k.zz" = HTTPException 500 "ValueError"
  /\ posts.delete_existing_post (U:=Fixtures.hex_uuid) (J:=Fixtures.toy_jwt)
       "first" "k.zz" Fixtures.blog
     = (HTTPException 500 "ValueError", Fixtures.blog).
Proof.
  destruct (subject_not_uuid_is_unhandled (U:=Fixtures.hex_uuid)
              (J:=Fixtures.toy_jwt) (S:=Fixtures.toy_posts) "k.zz" "zz"
              {[ "sub" := "zz" ]} "fourth" "title" "first" Fixtures.post_env
              Fixtures.blog) as (H1 & _ & _ & H4);
    [reflexivity | reflexivity | reflexivity |].
  by split.
Defined.

(** X2. [update_comment] tests ownership on text: it answers 403 exactly
    when the caller's [user_id] string is not [str(comment.author_id)]. A
    caller whose string is another spelling of the author's id is therefore
    refused the update, while [delete_comment], which converts the string
    first, lets the same caller delete the comment. *)
Theorem update_comment_owner_test_is_textual {U : UuidLib}
    (comment_id : UUID) (comment_in : CommentUpdate.t)
    (current_user : gmap string string) (s : string) (c : Comment.t)
    (env : comments.Env) (db : list Comment.t) :
  CommentService.get_by_id db comment_id = Some c ->
  current_user !! "user_id" = Some s ->
  (status_of (fst (comments.update_comment comment_id comment_in current_user
                     env db)) = 403
   <-> s <> string_of_uuid (Comment.author_id c))
  /\ (uuid_of_string s = Some (Comment.author_id c) ->
      s <> string_of_uuid (Comment.author_id c) ->
      comments.update_comment comment_id comment_in current_user env db
      = (HTTPException 403 "Not authorized to update this comment", db)
      /\ fst (comments.delete_comment comment_id current_user env db)
         = Ok (APIResponse_data {[ "deleted" := true ]})).
Proof.
  intros Hc Hs. unfold comments.update_comment. rewrite Hc, Hs. split.
  - case_bool_decide as Hne.
    + cbn. split; [congruence | done].
    + destruct (CommentService.update db c comment_in (comments.now env)).
      cbn. split; [done|]. intros Hs'. destruct Hne. congruence.
  - intros Hu Hne. rewrite bool_decide_eq_true_2 by congruence.
    split; [done|]. unfold comments.delete_comment, comments.caller_uuid.
    rewrite Hs, Hu, (delete_owner _ _ _ _ Hc). done.
Qed.

Lemma update_comment_owner_test_is_textual_witness :
  comments.update_comment (U:=Fixtures.hex_uuid) 1%N
    {| CommentUpdate.content := Some "better" |} {[ "user_id" := "0a" ]}
    Fixtures.comment_env Fixtures.thread
  = (HTTPException 403 "Not authorized to update this comment",
     Fixtures.thread)
  /\ fst (comments.delete_comment (U:=Fixtures.hex_uuid) 1%N
            {[ "user_id" := "0a" ]} Fixtures.comment_env Fixtures.thread)
     = Ok (APIResponse_data {[ "deleted" := true ]}).
Proof.
  destruct (update_comment_owner_test_is_textual (U:=Fixtures.hex_uuid) 1%N
              {| CommentUpdate.content := Some "better" |}
              {[ "user_id" := "0a" ]} "0a"
              (Fixtures.comment 1 10 None 0 false) Fixtures.comment_env
              Fixtures.thread) as [_ H]; [reflexivity | reflexivity |].
  apply H; [reflexivity | discriminate].
Defined.



(** ** Reading without the replies *)

Lemma build_comment_tree_root {U : UuidLib} depth db c t :
  CommentService.build_comment_tree depth db c = Some t ->
  node_data t = CommentInDB.model_validate c.
Proof.
  destruct depth as [|depth]; [done|]. cbn [CommentService.build_comment_tree].
  destruct (mapM _ _); [|done]. by intros [= <-].
Qed.

(** X4. [GET /comments/{id}] without [include_replies] answers with the
    comment and an empty list of replies whatever replies it has and
    whatever nesting the interpreter allows; and whenever the request with
    the replies succeeds, the one without them returns the same root. *)
Theorem get_comment_without_replies {U : UuidLib} (comment_id : UUID)
    (c : Comment.t) (env : comments.Env) (db : list Comment.t) :
  CommentService.get_by_id db comment_id = Some c ->
  comments.get_comment comment_id false env db
  = (Ok (APIResponse_data (WithReplies (CommentInDB.model_validate c) [])), db)
  /\ forall t,
       fst (comments.get_comment comment_id true env db)
       = Ok (APIResponse_data t) ->
       fst (comments.get_comment comment_id false env db)
       = Ok (APIResponse_data (WithReplies (node_data t) [])).
Proof.
  intros Hc. unfold comments.get_comment. rewrite Hc. split; [done|].
  intros t.
  destruct (CommentService.build_comment_tree _ _ _) as [t'|] eqn:Ht; [|done].
  cbn. intros [= ->]. by rewrite (build_comment_tree_root _ _ _ _ Ht).
Qed.

Lemma get_comment_without_replies_witness :
  comments.get_comment (U:=Fixtures.hex_uuid) 1%N false
    Fixtures.flat_env Fixtures.thread
  = (Ok (APIResponse_data
           (WithReplies
              (CommentInDB.model_validate (Fixtures.comment 1 10 None 0 false))
              [])), Fixtures.thread).
Proof.
  apply (get_comment_without_replies (U:=Fixtures.hex_uuid) 1%N
           (Fixtures.comment 1 10 None 0 false)).
  reflexivity.
Defined.

(** ** More on pagination *)

Lemma pages_of_has_next (total page size : Z) :
  1 <= size -> (page < pages_of total size <-> page * size < total).
Proof.
  intros Hsize. destruct (pages_of_ceil total size Hsize) as [Hlo Hhi].
  split; intros H; nia.
Qed.

Lemma pages_of_zero (total size : Z) :
  1 <= size -> 0 <= total -> (pages_of total size = 0 <-> total = 0).
Proof.
  intros Hsize Htotal. destruct (pages_of_ceil total size Hsize) as [Hlo Hhi].
  split; intros H.
  - rewrite H in *. lia.
  - subst total. assert (0 <= pages_of 0 size) by nia. nia.
Qed.

Lemma pages_of_le_total (total size : Z) :
  1 <= size -> 0 <= total -> 0 <= pages_of total size <= total.
Proof.
  intros Hsize Htotal. destruct (pages_of_ceil total size Hsize) as [Hlo Hhi].
  split; nia.
Qed.

Lemma offset_limit_nonempty {A} (skip limit : Z) (rows : list A) :
  0 <= skip -> 1 <= limit -> skip < Z.of_nat (length rows) ->
  offset_limit skip limit rows <> [].
Proof.
  intros Hskip Hlimit Hlt. unfold offset_limit. intros Hnil.
  apply (f_equal length) in Hnil. rewrite length_take, length_drop in Hnil.
  cbn in Hnil. lia.
Qed.

Lemma offset_limit_elem {A} (skip limit : Z) (rows : list A) x :
  x ∈ offset_limit skip limit rows -> x ∈ rows.
Proof.
  unfold offset_limit. intros H.
  by apply subseteq_take, subseteq_drop in H.
Qed.

(** X5. In the answer of [GET /posts/] to a valid request, [has_next] is
    true exactly when rows remain after this page ([page * limit < total]),
    [has_prev] exactly when the page is not the first, and [total_pages] is
    zero exactly when nothing matches; it never exceeds [total]. *)
Theorem list_all_posts_flags {U : UuidLib} {S : PostSchemas}
    (page limit : Z) (status author_id tag search : option string)
    (author : option UUID) (db : PostDb.t) :
  1 <= page -> 1 <= limit <= 100 ->
  posts.status_ok status = true ->
  posts.author_filter author_id = Returns author ->
  exists pr listing,
    posts.list_all_posts page limit status author_id tag search db
    = (Ok pr, db)
    /\ p_data pr = Some listing
    /\ (posts.has_next (posts.pagination listing) = true
        <-> page * limit < posts.total (posts.pagination listing))
    /\ (posts.has_prev (posts.pagination listing) = true <-> 1 < page)
    /\ (posts.total_pages (posts.pagination listing) = 0
        <-> posts.total (posts.pagination listing) = 0)
    /\ 0 <= posts.total_pages (posts.pagination listing)
       <= posts.total (posts.pagination listing).
Proof.
  intros Hpage [Hlo Hhi] Hstatus Hauthor. unfold posts.list_all_posts.
  assert (negb (1 <=? page) || negb (1 <=? limit) || negb (limit <=? 100)
          = false) as ->.
  { destruct (Z.leb_spec 1 page), (Z.leb_spec 1 limit), (Z.leb_spec limit 100);
      cbn; try done; lia. }
  rewrite Hstatus, Hauthor. cbn [negb orb]. unfold post_service.list_posts.
  eexists _, _. split; [reflexivity|]. split; [reflexivity|].
  cbn [posts.pagination posts.total posts.total_pages posts.has_next
       posts.has_prev].
  split; [|split; [|split]].
  - rewrite Z.ltb_lt. by apply pages_of_has_next.
  - apply Z.ltb_lt.
  - apply pages_of_zero; lia.
  - apply pages_of_le_total; lia.
Qed.

Lemma list_all_posts_flags_witness :
  exists pr listing,
    posts.list_all_posts (U:=Fixtures.hex_uuid) (S:=Fixtures.toy_posts)
      1 2 None None None None Fixtures.blog
    = (Ok pr, Fixtures.blog)
    /\ p_data pr = Some listing
    /\ posts.has_next (posts.pagination listing) = true
    /\ posts.total (posts.pagination listing) = 3.
Proof.
  destruct (list_all_posts_flags (U:=Fixtures.hex_uuid)
              (S:=Fixtures.toy_posts) 1 2 None None None None None
              Fixtures.blog)
    as (pr & listing & Hr & Hd & Hnext & _);
    [lia | lia | reflexivity | reflexivity |].
  exists pr, listing.
  assert (posts.total (posts.pagination listing) = 3) as Ht.
  { vm_compute in Hr. injection Hr as <-. injection Hd as <-. reflexivity. }
  repeat split; try done. apply Hnext. lia.
Defined.

(** X6. In the answer of [GET /comments/post/{post_id}] to a valid
    request, [total_pages] is zero exactly when the post has no active
    comment and never exceeds [total]; a page has at least one item exactly
    when it is not after the last page, and it never has more than
    [page_size] items. *)
Theorem get_comments_by_post_pages {U : UuidLib} (post_id : UUID)
    (page size : Z) (db : list Comment.t) :
  1 <= page -> 1 <= size <= 100 ->
  exists cr items,
    comments.get_comments_by_post post_id page size db = (Ok cr, db)
    /\ data (PaginatedResponse.envelope cr) = Some items
    /\ (PaginatedResponse.total_pages cr = 0 <-> PaginatedResponse.total cr = 0)
    /\ 0 <= PaginatedResponse.total_pages cr <= PaginatedResponse.total cr
    /\ (items <> [] <-> page <= PaginatedResponse.total_pages cr)
    /\ Z.of_nat (length items) <= size.
Proof.
  intros Hpage [Hlo Hhi]. unfold comments.get_comments_by_post.
  assert (negb (1 <=? page) || negb (1 <=? size) || negb (size <=? 100)
          = false) as ->.
  { destruct (Z.leb_spec 1 page), (Z.leb_spec 1 size), (Z.leb_spec size 100);
      cbn; try done; lia. }
  unfold CommentListing.get_by_post.
  cbn [CommentListing.total CommentListing.page CommentListing.page_size
       CommentListing.items].
  eexists _, _. split; [reflexivity|].
  cbn [PaginatedResponse.total PaginatedResponse.total_pages
       PaginatedResponse.envelope data APIResponse_data].
  split; [reflexivity|].
  set (rows := List.filter (CommentListing.on_post post_id) db).
  pose proof (pages_of_has_next (Z.of_nat (length rows)) (page - 1) size Hlo)
    as [Hnext1 Hnext2]. unfold pages_of in Hnext1, Hnext2.
  split; [apply pages_of_zero; lia|]. split; [apply pages_of_le_total; lia|].
  split.
  - split.
    + intros Hne.
      destruct (Z.le_gt_cases (Z.of_nat (length rows)) ((page - 1) * size))
        as [Hge|Hlt]; [|specialize (Hnext2 Hlt); lia].
      destruct Hne. by rewrite offset_limit_beyond.
    + intros Hle Hnil. apply fmap_nil_inv in Hnil.
      revert Hnil. apply offset_limit_nonempty; [nia | lia |].
      apply Hnext1. lia.
  - rewrite length_map. unfold offset_limit. rewrite length_take. lia.
Qed.

Lemma get_comments_by_post_pages_witness :
  exists cr items,
    comments.get_comments_by_post (U:=Fixtures.hex_uuid) 100%N 2 3
      Fixtures.thread
    = (Ok cr, Fixtures.thread)
    /\ data (PaginatedResponse.envelope cr) = Some items
    /\ PaginatedResponse.total_pages cr = 2
    /\ length items = 1%nat.
Proof.
  destruct (get_comments_by_post_pages (U:=Fixtures.hex_uuid) 100%N 2 3
              Fixtures.thread) as (cr & items & Hr & Hd & _);
    [lia | lia |].
  exists cr, items. vm_compute in Hr. injection Hr as <-.
  injection Hd as <-. repeat split; reflexivity.
Defined.

(** ** Filters and path parameters of the post listings *)

(** X7. [GET /posts/]: an empty [author_id] is read as no author filter at
    all and gives the very answer of a request without one; an [author_id]
    that is not the text of a UUID ends an otherwise valid request with
    500; a [status] that is none of [draft], [published], [archived] is
    rejected as a validation error. Nothing is written. *)
Theorem list_all_posts_filters {U : UuidLib} {S : PostSchemas}
    (page limit : Z) (status tag search : option string) (bad : string)
    (db : PostDb.t) :
  posts.list_all_posts page limit status (Some EmptyString) tag search db
  = posts.list_all_posts page limit status None tag search db
  /\ (1 <= page -> 1 <= limit <= 100 -> posts.status_ok status = true ->
      bad <> EmptyString -> uuid_of_string bad = None ->
      posts.list_all_posts page limit status (Some bad) tag search db
      = (HTTPException 500 "badly formed hexadecimal UUID string", db))
  /\ (posts.status_ok status = false ->
      forall author_id,
        posts.list_all_posts page limit status author_id tag search db
        = (RequestValidationError, db)).
Proof.
  split; [done|]. split.
  - intros Hpage [Hlo Hhi] Hstatus Hne Hbad. unfold posts.list_all_posts.
    assert (negb (1 <=? page) || negb (1 <=? limit) || negb (limit <=? 100)
            = false) as ->.
    { destruct (Z.leb_spec 1 page), (Z.leb_spec 1 limit),
        (Z.leb_spec limit 100); cbn; try done; lia. }
    rewrite Hstatus. cbn [negb orb]. unfold posts.author_filter.
    rewrite bool_decide_eq_false_2 by done. by rewrite Hbad.
  - intros Hstatus author_id. unfold posts.list_all_posts. rewrite Hstatus.
    cbn [negb]. by rewrite orb_true_r.
Qed.

Lemma list_all_posts_filters_witness :
  posts.list_all_posts (U:=Fixtures.hex_uuid) (S:=Fixtures.toy_posts)
    1 20 None (Some "zz") None None Fixtures.blog
  = (HTTPException 500 "badly formed hexadecimal UUID string", Fixtures.blog)
  /\ posts.list_all_posts (U:=Fixtures.hex_uuid) (S:=Fixtures.toy_posts)
       1 20 (Some "hidden") None None None Fixtures.blog
     = (RequestValidationError, Fixtures.blog).
Proof.
  split.
  - apply (list_all_posts_filters (U:=Fixtures.hex_uuid)
             (S:=Fixtures.toy_posts) 1 20 None None None "zz" Fixtures.blog);
      [lia | lia | reflexivity | discriminate | reflexivity].
  - apply (list_all_posts_filters (U:=Fixtures.hex_uuid)
             (S:=Fixtures.toy_posts) 1 20 (Some "hidden") None None "zz"
             Fixtures.blog).
    reflexivity.
Defined.

(** X8. [GET /posts/authors/{author_id}/posts] never writes; it rejects a
    page below 1 or a limit outside 1..100 as a validation error; with
    valid bounds, an [author_id] that is not the text of a UUID ends the
    request with 500, and for one that is, only posts of that author are
    listed, none of them more than [limit] at a time. *)
Theorem get_posts_by_author_id_answers {U : UuidLib} {S : PostSchemas}
    (author_id : string) (page limit : Z) (db : PostDb.t) :
  snd (posts.get_posts_by_author_id author_id page limit db) = db
  /\ (page < 1 \/ limit < 1 \/ 100 < limit ->
      fst (posts.get_posts_by_author_id author_id page limit db)
      = RequestValidationError)
  /\ (1 <= page -> 1 <= limit <= 100 ->
      match uuid_of_string author_id with
      | None =>
          fst (posts.get_posts_by_author_id author_id page limit db)
          = HTTPException 500 "ValueError"
      | Some author =>
          exists pr listing,
            fst (posts.get_posts_by_author_id author_id page limit db) = Ok pr
            /\ p_data pr = Some listing
            /\ Forall (fun item => posts.s_author_id item
                                   = string_of_uuid author)
                 (posts.items listing)
            /\ Z.of_nat (length (posts.items listing)) <= limit
      end).
Proof.
  unfold posts.get_posts_by_author_id, post_service.get_posts_by_author,
    post_service.list_posts.
  split; [|split].
  - destruct (_ || _); [done|]. by destruct (uuid_of_string author_id).
  - intros Hbad.
    assert (negb (1 <=? page) || negb (1 <=? limit) || negb (limit <=? 100)
            = true) as ->; [|done].
    destruct (Z.leb_spec 1 page), (Z.leb_spec 1 limit), (Z.leb_spec limit 100);
      cbn; try done; lia.
  - intros Hpage [Hlo Hhi].
    assert (negb (1 <=? page) || negb (1 <=? limit) || negb (limit <=? 100)
            = false) as ->.
    { destruct (Z.leb_spec 1 page), (Z.leb_spec 1 limit),
        (Z.leb_spec limit 100); cbn; try done; lia. }
    destruct (uuid_of_string author_id) as [author|]; [|done].
    eexists _, _. split; [reflexivity|]. split; [reflexivity|].
    cbn [posts.items]. split.
    + rewrite map_map. apply Forall_forall. intros item Hitem.
      apply list_elem_of_fmap in Hitem as (p & -> & Hp).
      cbn [posts.post_summary posts.s_author_id]. f_equal.
      apply offset_limit_elem, list_elem_of_In in Hp.
      apply filter_In in Hp as [_ Hp].
      cbn [post_service.filter_by] in Hp.
      rewrite !andb_true_r in Hp. cbn [andb] in Hp.
      by apply bool_decide_eq_true in Hp.
    + rewrite !length_map. unfold offset_limit. rewrite length_take. lia.
Qed.

Lemma get_posts_by_author_id_answers_witness :
  fst (posts.get_posts_by_author_id (U:=Fixtures.hex_uuid)
         (S:=Fixtures.toy_posts) "zz" 1 20 Fixtures.blog)
  = HTTPException 500 "ValueError"
  /\ fst (posts.get_posts_by_author_id (U:=Fixtures.hex_uuid)
            (S:=Fixtures.toy_posts) "a" 0 20 Fixtures.blog)
     = RequestValidationError.
Proof.
  split.
  - apply (get_posts_by_author_id_answers (U:=Fixtures.hex_uuid)
             (S:=Fixtures.toy_posts) "zz" 1 20 Fixtures.blog); lia.
  - apply (get_posts_by_author_id_answers (U:=Fixtures.hex_uuid)
             (S:=Fixtures.toy_posts) "a" 0 20 Fixtures.blog). lia.
Defined.

Example get_posts_by_author_id_blog :
  match fst (posts.get_posts_by_author_id (U:=Fixtures.hex_uuid)
               (S:=Fixtures.toy_posts) "a" 1 20 Fixtures.blog) with
  | Ok resp =>
      (fun l => (map posts.s_slug (posts.items l),
                 posts.total (posts.pagination l))) <$> p_data resp
  | HTTPException _ _ => None
  end = Some (["first"; "third"], 2).
Proof. vm_compute. reflexivity. Qed.

(** ** Addressing a post by id or by slug *)

Section addressing.
Context {U : UuidLib}.

Lemma get_post_by_id_Some db u p :
  post_service.get_post_by_id db u = Some p ->
  p ∈ PostDb.posts db /\ Post.id p = u.
Proof.
  unfold post_service.get_post_by_id. intros H.
  apply find_some in H as [Hin Hid]. apply bool_decide_eq_true in Hid.
  by rewrite list_elem_of_In.
Qed.

Lemma get_post_by_id_None db u :
  post_service.get_post_by_id db u = None <->
  forall p, p ∈ PostDb.posts db -> Post.id p <> u.
Proof.
  unfold post_service.get_post_by_id. split.
  - intros H p Hin Hid. rewrite list_elem_of_In in Hin.
    pose proof (find_none _ _ H p Hin) as Hp. cbn in Hp.
    by rewrite bool_decide_eq_true_2 in Hp.
  - intros H. destruct (find _ _) as [p|] eqn:E; [|done].
    apply find_some in E as [Hin Hid]. apply bool_decide_eq_true in Hid.
    rewrite <- list_elem_of_In in Hin. by destruct (H p Hin).
Qed.

Lemma get_post_by_slug_Some db slug p :
  post_service.get_post_by_slug db slug = Some p ->
  p ∈ PostDb.posts db /\ Post.slug p = slug.
Proof.
  unfold post_service.get_post_by_slug. intros H.
  apply find_some in H as [Hin Hs]. apply bool_decide_eq_true in Hs.
  by rewrite list_elem_of_In.
Qed.

Lemma get_post_by_slug_None db slug :
  post_service.get_post_by_slug db slug = None <->
  forall p, p ∈ PostDb.posts db -> Post.slug p <> slug.
Proof.
  unfold post_service.get_post_by_slug. split.
  - intros H p Hin Hs. rewrite list_elem_of_In in Hin.
    pose proof (find_none _ _ H p Hin) as Hp. cbn in Hp.
    by rewrite bool_decide_eq_true_2 in Hp.
  - intros H. destruct (find _ _) as [p|] eqn:E; [|done].
    apply find_some in E as [Hin Hs]. apply bool_decide_eq_true in Hs.
    rewrite <- list_elem_of_In in Hin. by destruct (H p Hin).
Qed.
End addressing.

(** X9. The lookup that [update_existing_post] and [delete_existing_post]
    share: a post whose id the identifier spells is preferred to a post
    whose slug is the identifier; every stored post is found under the
    canonical text of its id; whatever is found has that id or that slug;
    and nothing is found exactly when no post has the id and no post has
    the slug. *)
Theorem find_post_by_id_then_slug {U : UuidLib} (db : PostDb.t)
    (post_identifier : string) :
  (forall u p, uuid_of_string post_identifier = Some u ->
     post_service.get_post_by_id db u = Some p ->
     posts.find_post db post_identifier = Some p)
  /\ (forall p, p ∈ PostDb.posts db ->
        exists p', posts.find_post db (string_of_uuid (Post.id p)) = Some p'
                   /\ Post.id p' = Post.id p)
  /\ (forall p, posts.find_post db post_identifier = Some p ->
        p ∈ PostDb.posts db
        /\ (uuid_of_string post_identifier = Some (Post.id p)
            \/ Post.slug p = post_identifier))
  /\ (posts.find_post db post_identifier = None <->
      forall p, p ∈ PostDb.posts db ->
        uuid_of_string post_identifier <> Some (Post.id p)
        /\ Post.slug p <> post_identifier).
Proof.
  split; [|split; [|split]].
  - intros u p Hu Hp. unfold posts.find_post. by rewrite Hu, Hp.
  - intros p Hin. unfold posts.find_post. rewrite uuid_of_string_of_uuid.
    destruct (post_service.get_post_by_id db (Post.id p)) as [p'|] eqn:E.
    + exists p'. split; [done|]. by apply get_post_by_id_Some in E as [_ ?].
    + rewrite get_post_by_id_None in E. by destruct (E p Hin).
  - intros p. unfold posts.find_post.
    destruct (uuid_of_string post_identifier) as [u|] eqn:Hu.
    + destruct (post_service.get_post_by_id db u) as [p'|] eqn:E.
      * intros [= ->]. apply get_post_by_id_Some in E as [Hin <-]. eauto.
      * intros H%get_post_by_slug_Some. destruct H. eauto.
    + intros H%get_post_by_slug_Some. destruct H. eauto.
  - unfold posts.find_post. split.
    + intros Hnone p Hin.
      destruct (uuid_of_string post_identifier) as [u|] eqn:Hu.
      * destruct (post_service.get_post_by_id db u) as [p'|] eqn:E; [done|].
        rewrite get_post_by_id_None in E. rewrite get_post_by_slug_None in Hnone.
        split; [|by apply Hnone]. intros [= ->]. by destruct (E p Hin).
      * rewrite get_post_by_slug_None in Hnone. split; [done | by apply Hnone].
    + intros Hall.
      assert (post_service.get_post_by_slug db post_identifier = None) as Hs.
      { apply get_post_by_slug_None. intros p Hin. by apply Hall. }
      destruct (uuid_of_string post_identifier) as [u|] eqn:Hu; [|done].
      destruct (post_service.get_post_by_id db u) as [p'|] eqn:E; [|done].
      apply get_post_by_id_Some in E as [Hin <-].
      by destruct (Hall p' Hin) as [? _].
Qed.

Lemma find_post_by_id_then_slug_witness :
  posts.find_post (U:=Fixtures.hex_uuid) Fixtures.blog "2"
  = Some (Fixtures.post 2 11 "second" 0)
  /\ exists p', posts.find_post (U:=Fixtures.hex_uuid) Fixtures.blog "3"
                = Some p' /\ Post.id p' = 3%N.
Proof.
  split.
  - destruct (find_post_by_id_then_slug (U:=Fixtures.hex_uuid) Fixtures.blog
                "2") as [H _].
    apply (H 2%N); reflexivity.
  - destruct (find_post_by_id_then_slug (U:=Fixtures.hex_uuid) Fixtures.blog
                "3") as (_ & H & _).
    apply (H (Fixtures.post 3 10 "third" 7)).
    apply list_elem_of_In. simpl. auto.
Defined.

(** ** Deleting a post *)

(** X10. When the author deletes a post the answer is a success without
    data, every row with the id of the post is gone and every other row,
    and every profile, stays as it was, in the same order; the post is no
    longer found by its id, so a second deletion under the canonical text
    of its id is answered with 404 unless another post has that text as
    its slug. *)
Theorem delete_existing_post_by_author {U : UuidLib} {J : JwtLib}
    (post_identifier token : string) (p : Post.t) (db : PostDb.t) :
  posts.get_current_user_id token = Ok (Post.author_id p) ->
  posts.find_post db post_identifier = Some p ->
  exists resp db',
    posts.delete_existing_post post_identifier token db = (Ok resp, db')
    /\ p_data resp = None
    /\ PostDb.posts db'
       = List.filter (fun q => negb (bool_decide (Post.id q = Post.id p)))
           (PostDb.posts db)
    /\ PostDb.profiles db' = PostDb.profiles db
    /\ (forall q, q ∈ PostDb.posts db' <->
                  q ∈ PostDb.posts db /\ Post.id q <> Post.id p)
    /\ post_service.get_post_by_id db' (Post.id p) = None
    /\ ((forall q, q ∈ PostDb.posts db ->
                   Post.slug q <> string_of_uuid (Post.id p)) ->
        posts.delete_existing_post (string_of_uuid (Post.id p)) token db'
        = (HTTPException 404 "Post not found", db')).
Proof.
  intros Htok Hp. unfold posts.delete_existing_post at 1. rewrite Htok, Hp.
  rewrite bool_decide_eq_false_2 by (intros H; by apply H).
  eexists _, _. split; [reflexivity|]. split; [done|]. split; [done|].
  split; [done|].
  assert (forall q, q ∈ PostDb.posts (posts.db_delete db p) <->
                    q ∈ PostDb.posts db /\ Post.id q <> Post.id p) as Hmem.
  { intros q. cbn [posts.db_delete PostDb.posts].
    rewrite !list_elem_of_In, filter_In, negb_true_iff.
    rewrite bool_decide_eq_false. tauto. }
  assert (post_service.get_post_by_id (posts.db_delete db p) (Post.id p)
          = None) as Hgone.
  { apply get_post_by_id_None. intros q Hq. by apply Hmem in Hq as [_ ?]. }
  split; [exact Hmem|]. split; [exact Hgone|].
  intros Hslug. unfold posts.delete_existing_post, posts.find_post.
  rewrite Htok, uuid_of_string_of_uuid, Hgone.
  assert (post_service.get_post_by_slug (posts.db_delete db p)
            (string_of_uuid (Post.id p)) = None) as ->; [|done].
  apply get_post_by_slug_None. intros q Hq. apply Hmem in Hq as [Hq _].
  by apply Hslug.
Qed.

Lemma delete_existing_post_by_author_witness :
  exists resp db',
    posts.delete_existing_post (U:=Fixtures.hex_uuid) (J:=Fixtures.toy_jwt)
      "first" "k.a" Fixtures.blog = (Ok resp, db')
    /\ post_service.get_post_by_id db' 1%N = None.
Proof.
  destruct (delete_existing_post_by_author (U:=Fixtures.hex_uuid)
              (J:=Fixtures.toy_jwt) "first" "k.a"
              (Fixtures.post 1 10 "first" 5) Fixtures.blog)
    as (resp & db' & Hr & _ & _ & _ & _ & Hgone & _);
    [reflexivity | reflexivity |].
  by exists resp, db'.
Defined.

(** ** The comment schemas *)

(** X12. Running the validator of [CommentInDB] again changes nothing. It
    overwrites whatever [edited] held, but it writes the label only when
    [edited_at] is set: a label that comes with no [edited_at] is passed
    on as it is, beside [edited = false]. *)
Theorem compute_edited_flag_again {U : UuidLib} (self : CommentInDB.t) :
  CommentInDB.compute_edited_flag (CommentInDB.compute_edited_flag self)
  = CommentInDB.compute_edited_flag self
  /\ (CommentInDB.edited_at self = None ->
      CommentInDB.edited (CommentInDB.compute_edited_flag self) = false
      /\ CommentInDB.edited_at_formatted (CommentInDB.compute_edited_flag self)
         = CommentInDB.edited_at_formatted self).
Proof.
  split.
  - unfold CommentInDB.compute_edited_flag.
    cbn [CommentInDB.edited_at CommentInDB.edited_at_formatted
         CommentInDB.content CommentInDB.id CommentInDB.post_id
         CommentInDB.author_id CommentInDB.parent_id CommentInDB.is_deleted
         CommentInDB.created_at CommentInDB.updated_at].
    by destruct (CommentInDB.edited_at self).
  - intros Hnone. unfold CommentInDB.compute_edited_flag.
    cbn [CommentInDB.edited CommentInDB.edited_at_formatted].
    by rewrite Hnone.
Qed.

Lemma compute_edited_flag_again_witness :
  CommentInDB.edited_at_formatted
    (CommentInDB.compute_edited_flag (U:=Fixtures.hex_uuid)
       Fixtures.stale_label)
  = Some "edited - long ago"
  /\ CommentInDB.edited
       (CommentInDB.compute_edited_flag (U:=Fixtures.hex_uuid)
          Fixtures.stale_label) = false.
Proof.
  destruct (compute_edited_flag_again (U:=Fixtures.hex_uuid)
              Fixtures.stale_label) as [_ H].
  destruct H as [He Hf]; [reflexivity|]. by split.
Defined.

Section dumping.
Context {U : UuidLib}.

Lemma optional_uuid_dump (o : option UUID) :
  comments.optional_uuid (Some (from_option PyUUID PyNone o)) = Some o.
Proof. by destruct o. Qed.

Lemma schema_of_model_dump (c : CommentCreate.t) :
  comments.CommentCreateSchema (comments.model_dump c)
  = if comments.content_ok (CommentCreate.content c) then Some c else None.
Proof.
  unfold comments.CommentCreateSchema, comments.model_dump.
  rewrite lookup_insert_eq.
  destruct (comments.content_ok (CommentCreate.content c)); [|done].
  repeat (rewrite lookup_insert_eq || rewrite lookup_insert_ne by done).
  rewrite !optional_uuid_dump. cbn. by destruct c.
Qed.
End dumping.

(** X13. [model_dump] and the constructor of [CommentCreate] are inverse
    to each other on valid bodies: building the schema from the dictionary
    of a body gives the body back when its content has 1 to 5000
    characters, and is refused otherwise. The dictionary has the three keys
    [content], [post_id] and [parent_id] and no other. *)
Theorem model_dump_round_trip {U : UuidLib} (c : CommentCreate.t) :
  comments.CommentCreateSchema (comments.model_dump c)
  = (if comments.content_ok (CommentCreate.content c) then Some c else None)
  /\ dom (comments.model_dump c)
     = ({[ "content"; "post_id"; "parent_id" ]} : gset string).
Proof.
  split; [apply schema_of_model_dump|].
  unfold comments.model_dump. rewrite !dom_insert_L, dom_empty_L.
  set_solver.
Qed.

Lemma create_comment_by_post_is_create_aux {U : UuidLib} (post_id : UUID)
    (body : CommentCreate.t) (current_user : gmap string string)
    (env : comments.Env) (db : list Comment.t) :
  comments.content_ok (CommentCreate.content body) = true ->
  comments.create_comment_by_post post_id body current_user env db
  = comments.create_comment
      {| CommentCreate.content := CommentCreate.content body;
         CommentCreate.post_id := Some post_id;
         CommentCreate.parent_id := CommentCreate.parent_id body |}
      current_user env db.
Proof.
  intros Hok. unfold comments.create_comment_by_post, comments.create_comment.
  by rewrite (schema_of_dump _ _ Hok).
Qed.

(** X14. [POST /comments/post/{post_id}] is [POST /comments] on the body
    with its [post_id] replaced by the one of the path: for a body with
    valid content the two handlers give the same answer and the same
    table. At the endpoint, where FastAPI validates the body first, the two
    routes agree on every body: a body whose content is not valid is
    answered with 422 by both and neither writes. *)
Theorem create_comment_by_post_is_create {U : UuidLib} (post_id : UUID)
    (body : CommentCreate.t) (current_user : gmap string string)
    (env : comments.Env) (db : list Comment.t) :
  let replaced (b : CommentCreate.t) : CommentCreate.t :=
    {| CommentCreate.content := CommentCreate.content b;
       CommentCreate.post_id := Some post_id;
       CommentCreate.parent_id := CommentCreate.parent_id b |} in
  (comments.content_ok (CommentCreate.content body) = true ->
   comments.create_comment_by_post post_id body current_user env db
   = comments.create_comment (replaced body) current_user env db)
  /\ comments.with_body body
       (fun b => comments.create_comment_by_post post_id b current_user env) db
     = comments.with_body body
         (fun b => comments.create_comment (replaced b) current_user env) db
  /\ (comments.content_ok (CommentCreate.content body) = false ->
      comments.with_body body
        (fun b => comments.create_comment_by_post post_id b current_user env)
        db
      = (RequestValidationError, db)
      /\ comments.with_body body
           (fun b => comments.create_comment b current_user env) db
         = (RequestValidationError, db)).
Proof.
  cbn zeta. unfold comments.with_body. split; [|split].
  - apply create_comment_by_post_is_create_aux.
  - destruct (comments.content_ok (CommentCreate.content body)) eqn:Hok;
      [|done].
    by apply create_comment_by_post_is_create_aux.
  - by intros ->.
Qed.

Lemma create_comment_by_post_is_create_witness :
  comments.create_comment_by_post (U:=Fixtures.hex_uuid) 100%N
    (Fixtures.body_on None) {[ "user_id" := "a" ]} Fixtures.comment_env
    Fixtures.thread
  = comments.create_comment (U:=Fixtures.hex_uuid)
      (Fixtures.body_on (Some 100%N)) {[ "user_id" := "a" ]}
      Fixtures.comment_env Fixtures.thread.
Proof.
  destruct (create_comment_by_post_is_create (U:=Fixtures.hex_uuid) 100%N
              (Fixtures.body_on None) {[ "user_id" := "a" ]}
              Fixtures.comment_env Fixtures.thread) as [H _].
  apply H. reflexivity.
Defined.

(** ** After a deletion, and what a creation leaves alone *)

Section rows.
Context {U : UuidLib}.

Lemma replace_row_length row db :
  length (CommentService.replace_row row db) = length db.
Proof. unfold CommentService.replace_row. apply length_map. Qed.

Lemma replace_row_other row db q :
  q ∈ db -> Comment.id q <> Comment.id row ->
  q ∈ CommentService.replace_row row db.
Proof.
  intros Hin Hne. unfold CommentService.replace_row.
  apply list_elem_of_fmap. exists q. split; [|done].
  by rewrite bool_decide_eq_false_2.
Qed.
End rows.



Example thread_after_deletion :
  let db' :=
    snd (comments.delete_comment (U:=Fixtures.hex_uuid) 2%N
           {[ "user_id" := "b" ]} Fixtures.comment_env Fixtures.thread) in
  (node_replies <$>
     (match fst (comments.get_comment (U:=Fixtures.hex_uuid) 1%N true
                   Fixtures.comment_env db') with
      | Ok resp => data resp
      | HTTPException _ _ => None
      end),
   Comment.parent_id
     <$> CommentService.get_by_id (U:=Fixtures.hex_uuid) db' 5%N)
  = (Some [ WithReplies
              (CommentInDB.model_validate
                 (Fixtures.comment 3 12 (Some 1%N) 5 false)) [] ],
     Some (Some 2%N)).
Proof. vm_compute. reflexivity. Qed.

(** X16. Neither creation route touches a row that is already stored: the
    table after the request is the table before it, followed by the one
    new row when the answer is a success and by nothing otherwise. The new
    row carries the id drawn for it and the time of the request, is active
    and is not edited. *)
Theorem creation_only_appends {U : UuidLib} (post_id : UUID)
    (body : CommentCreate.t) (current_user : gmap string string)
    (env : comments.Env) (db : list Comment.t) :
  let fresh (r : Result (APIResponse CommentInDB.t) * list Comment.t) :=
    match fst r with
    | Ok _ =>
        exists c, snd r = db ++ [c]
                  /\ Comment.id c = comments.new_id env
                  /\ Comment.created_at c = comments.now env
                  /\ Comment.is_deleted c = false
                  /\ Comment.edited_at c = None
                  /\ fst r = Ok (APIResponse_data (CommentInDB.model_validate c))
    | HTTPException _ _ => snd r = db
    end in
  fresh (comments.create_comment body current_user env db)
  /\ fresh (comments.create_comment_by_post post_id body current_user env db).
Proof.
  assert (forall obj_in,
            let r := comments.create_comment obj_in current_user env db in
            match fst r with
            | Ok _ =>
                exists c, snd r = db ++ [c]
                  /\ Comment.id c = comments.new_id env
                  /\ Comment.created_at c = comments.now env
                  /\ Comment.is_deleted c = false
                  /\ Comment.edited_at c = None
                  /\ fst r = Ok (APIResponse_data (CommentInDB.model_validate c))
            | HTTPException _ _ => snd r = db
            end) as Hcreate.
  { intros obj_in. unfold comments.create_comment, CommentService.create.
    destruct (comments.caller_uuid current_user); cbn; try done.
    destruct (CommentCreate.post_id obj_in); cbn; [|done].
    eexists. split; [reflexivity|]. done. }
  cbn zeta. split; [apply Hcreate|].
  destruct (comments.content_ok (CommentCreate.content body)) eqn:Hok.
  - rewrite (create_comment_by_post_is_create_aux post_id body current_user
               env db Hok).
    apply Hcreate.
  - unfold comments.create_comment_by_post, comments.CommentCreateSchema,
      comments.model_dump.
    rewrite lookup_insert_ne by done. rewrite lookup_insert_eq.
    by rewrite Hok.
Qed.

(** ** What the label tells *)

Lemma digit_inj (a b : Z) : datetime.digit a = datetime.digit b ->
  a mod 10 = b mod 10.
Proof.
  unfold datetime.digit. intros H. apply (f_equal nat_of_ascii) in H.
  pose proof (Z.mod_pos_bound a 10 ltac:(lia)).
  pose proof (Z.mod_pos_bound b 10 ltac:(lia)).
  rewrite !nat_ascii_embedding in H by lia. lia.
Qed.

Lemma pad2_app_inj (a b : Z) (s t : string) :
  0 <= a < 100 -> 0 <= b < 100 ->
  (datetime.pad2 a ++ s)%string = (datetime.pad2 b ++ t)%string ->
  a = b /\ s = t.
Proof.
  intros Ha Hb H.
  change (String (datetime.digit (a / 10)) (String (datetime.digit a) s)
          = String (datetime.digit (b / 10)) (String (datetime.digit b) t))
    in H.
  injection H as H1 H2 H3. apply digit_inj in H1, H2.
  split; [|done]. Z.div_mod_to_equations. lia.
Qed.

Lemma pad4_app_inj (a b : Z) (s t : string) :
  0 <= a < 10000 -> 0 <= b < 10000 ->
  (datetime.pad4 a ++ s)%string = (datetime.pad4 b ++ t)%string ->
  a = b /\ s = t.
Proof.
  intros Ha Hb H.
  change (String (datetime.digit (a / 1000))
            (String (datetime.digit (a / 100))
               (String (datetime.digit (a / 10))
                  (String (datetime.digit a) s)))
          = String (datetime.digit (b / 1000))
              (String (datetime.digit (b / 100))
                 (String (datetime.digit (b / 10))
                    (String (datetime.digit b) t))))
    in H.
  injection H as H1 H2 H3 H4 H5. apply digit_inj in H1, H2, H3, H4.
  split; [|done]. Z.div_mod_to_equations. lia.
Qed.

Lemma month_abbr_app_inj (a b : Z) (s t : string) :
  1 <= a <= 12 -> 1 <= b <= 12 ->
  (datetime.month_abbr a ++ s)%string = (datetime.month_abbr b ++ t)%string ->
  a = b /\ s = t.
Proof.
  intros Ha Hb.
  assert (a = 1 \/ a = 2 \/ a = 3 \/ a = 4 \/ a = 5 \/ a = 6 \/ a = 7
          \/ a = 8 \/ a = 9 \/ a = 10 \/ a = 11 \/ a = 12) as Ha' by lia.
  assert (b = 1 \/ b = 2 \/ b = 3 \/ b = 4 \/ b = 5 \/ b = 6 \/ b = 7
          \/ b = 8 \/ b = 9 \/ b = 10 \/ b = 11 \/ b = 12) as Hb' by lia.
  clear Ha Hb.
  repeat destruct Ha' as [->|Ha']; try subst a;
    repeat destruct Hb' as [->|Hb']; try subst b;
    cbv [datetime.month_abbr nth Z.to_nat Z.sub Z.add Z.opp Z.pos_sub
         Pos.to_nat Pos.iter_op Init.Nat.add Pos.pred_double String.append
         Pos.succ Z.succ_double Z.pred_double Z.double];
    intros H; try discriminate H; by injection H.
Qed.

Lemma hour_of_label (h1 h2 : Z) :
  0 <= h1 < 24 -> 0 <= h2 < 24 ->
  datetime.hour12 h1 = datetime.hour12 h2 ->
  datetime.am_pm h1 = datetime.am_pm h2 -> h1 = h2.
Proof.
  unfold datetime.hour12, datetime.am_pm. intros H1 H2 H12 Hap.
  destruct (Z.ltb_spec h1 12), (Z.ltb_spec h2 12); try discriminate Hap;
    destruct (Z.eqb_spec (h1 mod 12) 0), (Z.eqb_spec (h2 mod 12) 0);
    Z.div_mod_to_equations; lia.
Qed.

Lemma hour12_range (h : Z) : 0 <= h < 24 -> 1 <= datetime.hour12 h <= 12.
Proof.
  unfold datetime.hour12. intros H.
  destruct (Z.eqb_spec (h mod 12) 0); Z.div_mod_to_equations; lia.
Qed.


Lemma valid_noon : datetime.valid Fixtures.noon.
Proof. unfold datetime.valid. cbn. lia. Defined.

Lemma valid_noon_and_a_half : datetime.valid Fixtures.noon_and_a_half.
Proof. unfold datetime.valid. cbn. lia. Defined.

